(** * acfun-downloader: identifiers, page extraction and the download orchestrator

    A shallow embedding of [src/models.py], [src/extractor.py] and
    [src/downloader.py].  Python values that the code handles dynamically
    (tuples that are used as lists, lists that are used as dictionaries) are
    kept in a small universe [PyObj]; everything the code obtains from the
    outside (HTTP replies, random bytes, sub-processes, the clock, the files
    of the output directory) lives in an explicit [World] that is threaded
    through a state-and-exception monad.

    What the model leaves out or fixes:
    - [print] calls are dropped, except that the operands of their f-strings
      are still evaluated where that can raise;
    - the headers of a request are not represented, no reply depends on them;
    - the file system is the set of the paths that exist; [os.rename] and
      [os.remove] fail only when their source is missing, and a merge with
      exit status 0 has written its output;
    - the two downloads of an acquisition run in a thread pool and write
      different files; the model runs the video download first;
    - character classes are those of ASCII text. *)

From Stdlib Require Import ZArith Ascii String List Lia.
From Stdlib Require Import Strings.Byte.
From stdpp Require Import base decidable option list gmap strings.

Set Warnings "-register-all,-clear-no-such-hyp".

(** ** Text: the [str] methods and [re] patterns used by the sources

    Python [str] is modelled by [string]; the character classes below are the
    ASCII part of Python's ([\d], [\s], [str.strip], [int]). *)
Module Text.

Definition is_digit (c : ascii) : bool :=
  match c with
  | "0" | "1" | "2" | "3" | "4" | "5" | "6" | "7" | "8" | "9" => true
  | _ => false
  end%char.

(** [str.isspace] on ASCII: tab, LF, VT, FF, CR, the four separators
    0x1c..0x1f and the blank. *)
Definition is_space (c : ascii) : bool :=
  match c with
  | "009" | "010" | "011" | "012" | "013" | "028" | "029" | "030" | "031"
  | " " => true
  | _ => false
  end%char.

Fixpoint lstrip (s : string) : string :=
  match s with
  | String c s' => if is_space c then lstrip s' else s
  | EmptyString => EmptyString
  end.

Definition rstrip (s : string) : string := String.rev (lstrip (String.rev s)).

(** [s.strip()] *)
Definition strip (s : string) : string := rstrip (lstrip s).

(** [s.startswith(p)], returning what follows the prefix. *)
Fixpoint strip_prefix (p s : string) : option string :=
  match p, s with
  | EmptyString, _ => Some s
  | String a p', String b s' => if Ascii.eqb a b then strip_prefix p' s' else None
  | String _ _, EmptyString => None
  end.

(** The longest run of digits at the head of [s], and the rest. *)
Fixpoint span_digits (s : string) : string * string :=
  match s with
  | String c s' =>
      if is_digit c
      then let (d, r) := span_digits s' in (String c d, r)
      else (EmptyString, s)
  | EmptyString => (EmptyString, EmptyString)
  end.

(** One attempt of the pattern [p(\d+)] at the head of [s], for a literal
    [p]: group 1. *)
Definition match_digits (p s : string) : option string :=
  match strip_prefix p s with
  | Some r =>
      match span_digits r with
      | (EmptyString, _) => None
      | (d, _) => Some d
      end
  | None => None
  end.

(** [re.search(p + r"(\d+)", s)]: group 1 of the leftmost match. *)
Fixpoint search_digits (p s : string) : option string :=
  match match_digits p s with
  | Some d => Some d
  | None =>
      match s with
      | String _ s' => search_digits p s'
      | EmptyString => None
      end
  end.

(** One attempt of [ac(\d+_\d+)] at the head of [s].  Both [\d+] are greedy;
    a digit run can only be followed by [_] at its very end, so no shorter
    run needs to be tried. *)
Definition match_part_vid (s : string) : option string :=
  match strip_prefix "ac" s with
  | Some r =>
      match span_digits r with
      | (EmptyString, _) => None
      | (d1, String "_" r2) =>
          match span_digits r2 with
          | (EmptyString, _) => None
          | (d2, _) => Some (d1 +:+ "_" +:+ d2)
          end
      | _ => None
      end
  | None => None
  end.

(** [re.search(r"ac(\d+_\d+)", s)]: group 1 of the leftmost match. *)
Fixpoint search_part_vid (s : string) : option string :=
  match match_part_vid s with
  | Some d => Some d
  | None =>
      match s with
      | String _ s' => search_part_vid s'
      | EmptyString => None
      end
  end.

(** The text before the first occurrence of [sep] in [s]. *)
Fixpoint before (sep s : string) : option string :=
  match strip_prefix sep s with
  | Some _ => Some EmptyString
  | None =>
      match s with
      | String c s' => String c <$> before sep s'
      | EmptyString => None
      end
  end.

(** [s.split(sep)[0]] *)
Definition split_head (sep s : string) : string := default s (before sep s).

(** One attempt of [window.videoInfo\s*=\s*({.+?});] (with [re.DOTALL]) at
    the head of [s]: group 1.  The dot after [window] takes any character; the
    lazy [.+?] takes at least one character and stops at the first [};]. *)
Definition match_videoInfo (s : string) : option string :=
  r0 ← strip_prefix "window" s;
  match r0 with
  | String _ r1 =>
      r2 ← strip_prefix "videoInfo" r1;
      r3 ← strip_prefix "=" (lstrip r2);
      match lstrip r3 with
      | String "{" (String c r4) =>
          x ← before "};" r4;
          Some ("{" +:+ String c x +:+ "}")
      | _ => None
      end
  | EmptyString => None
  end.

(** [re.search(r'window.videoInfo\s*=\s*({.+?});', s, re.DOTALL)] *)
Fixpoint search_videoInfo (s : string) : option string :=
  match match_videoInfo s with
  | Some g => Some g
  | None =>
      match s with
      | String _ s' => search_videoInfo s'
      | EmptyString => None
      end
  end.

(** The character class of the file-name pattern: the nine characters
    less-than, greater-than, colon, double quote, slash, backslash, bar,
    question mark and star. *)
Definition forbidden (c : ascii) : bool :=
  match c with
  | "<" | ">" | ":" | "034" | "/" | "\" | "|" | "?" | "*" => true
  | _ => false
  end%char.

(** [re.sub] of that class by an underscore, as in [_download_single_video]
    and in [sanitize_filename] of [happy.py]. *)
Fixpoint sanitize (title : string) : string :=
  match title with
  | String c s => String (if forbidden c then "_"%char else c) (sanitize s)
  | EmptyString => EmptyString
  end.

Definition ends_with_slash (a : string) : bool :=
  match String.rev a with
  | String "/" _ => true
  | _ => false
  end.

(** [os.path.join(a, b)] (posixpath). *)
Definition path_join (a b : string) : string :=
  match b with
  | String "/" _ => b
  | _ =>
      match a with
      | EmptyString => b
      | _ => if ends_with_slash a then a +:+ b else a +:+ "/" +:+ b
      end
  end.

Definition hex_digit (n : N) : ascii :=
  match n with
  | 0 => "0" | 1 => "1" | 2 => "2" | 3 => "3" | 4 => "4" | 5 => "5" | 6 => "6"
  | 7 => "7" | 8 => "8" | 9 => "9" | 10 => "a" | 11 => "b" | 12 => "c"
  | 13 => "d" | 14 => "e" | _ => "f"
  end%N%char.

(** [bytes.hex()] *)
Fixpoint hex (bs : list byte) : string :=
  match bs with
  | b :: bs' =>
      let n := Byte.to_N b in
      String (hex_digit (n / 16)) (String (hex_digit (n mod 16)) (hex bs'))
  | [] => EmptyString
  end.

Definition digit_value (c : ascii) : Z := Z.of_N (N_of_ascii c) - 48.

(** The digits of a decimal literal after the first one; a single underscore
    may separate two digits. *)
Fixpoint int_digits (acc : Z) (s : string) : option Z :=
  match s with
  | EmptyString => Some acc
  | String "_" (String c s') =>
      if is_digit c then int_digits (10 * acc + digit_value c) s' else None
  | String c s' =>
      if is_digit c then int_digits (10 * acc + digit_value c) s' else None
  end.

Definition int_unsigned (s : string) : option Z :=
  match s with
  | String c s' => if is_digit c then int_digits (digit_value c) s' else None
  | EmptyString => None
  end.

(** [int(s)] for a [str] argument; [None] stands for [ValueError]. *)
Definition int (s : string) : option Z :=
  match strip s with
  | String "-" s' => Z.opp <$> int_unsigned s'
  | String "+" s' => int_unsigned s'
  | s' => int_unsigned s'
  end.

End Text.

(** ** Python values *)

(** The three identifier classes of [models.py]. *)
Inductive IdClass := AcfunIdC | UidC | VidC.

(** [class AcfunId(NamedTuple)]: one field, [value: str]; [Uid] and [Vid] are
    its subclasses. *)
Record AcfunId := mkId { id_class : IdClass; value : string }.

Definition Uid (s : string) : AcfunId := mkId UidC s.
Definition Vid (s : string) : AcfunId := mkId VidC s.

(** The values that flow through the extractor and the downloader.  The
    [NamedTuple] classes other than the identifiers are tuples carrying their
    class name; a [TypedDict] is a plain [dict] at run time. *)
Inductive PyObj :=
| PyNone
| PyBool (b : bool)
| PyInt (z : Z)
| PyStr (s : string)
| PyDatetime (t : Z)
| PyId (i : AcfunId)
| PyTuple (cls : string) (items : list PyObj)
| PyList (items : list PyObj)
| PyDict (entries : list (string * PyObj)).

Inductive Exn :=
| TypeError | KeyError | ValueError | AttributeError
| RequestException
| CalledProcessError      (* a subprocess.SubprocessError *)
| FileNotFoundError
| PermissionError         (* a subclass of OSError other than FileNotFoundError *)
| OSError.                (* an OSError of no more specific class *)

Inductive Result (A : Type) :=
| Ok (a : A)
| Raise (e : Exn).
Arguments Ok {A} a.
Arguments Raise {A} e.

Module Py.

(** [bool(o)] *)
Definition truthy (o : PyObj) : bool :=
  match o with
  | PyNone => false
  | PyBool b => b
  | PyInt z => negb (z =? 0)%Z
  | PyStr s => negb (String.eqb s EmptyString)
  | PyDatetime _ => true
  | PyId _ => true                       (* a tuple of one field *)
  | PyTuple _ items => negb (Nat.eqb (length items) 0)
  | PyList items => negb (Nat.eqb (length items) 0)
  | PyDict entries => negb (Nat.eqb (length entries) 0)
  end.

(** [len(o)] *)
Definition len (o : PyObj) : Result Z :=
  match o with
  | PyStr s => Ok (Z.of_nat (String.length s))
  | PyId _ => Ok 1%Z
  | PyTuple _ items | PyList items => Ok (Z.of_nat (length items))
  | PyDict entries => Ok (Z.of_nat (length entries))
  | PyNone | PyBool _ | PyInt _ | PyDatetime _ => Raise TypeError
  end.

Definition chars (s : string) : list PyObj :=
  (λ c, PyStr (String c EmptyString)) <$> list_ascii_of_string s.

(** The items that [for x in o] goes through. *)
Definition iter (o : PyObj) : Result (list PyObj) :=
  match o with
  | PyStr s => Ok (chars s)
  | PyId i => Ok [PyStr (value i)]
  | PyTuple _ items | PyList items => Ok items
  | PyDict entries => Ok ((λ e, PyStr e.1) <$> entries)
  | PyNone | PyBool _ | PyInt _ | PyDatetime _ => Raise TypeError
  end.

Fixpoint assoc (k : string) (entries : list (string * PyObj)) : option PyObj :=
  match entries with
  | (k', v) :: rest => if String.eqb k k' then Some v else assoc k rest
  | [] => None
  end.

(** [o[k]] for a [str] key [k]: only a [dict] can be indexed by a string. *)
Definition getitem (o : PyObj) (k : string) : Result PyObj :=
  match o with
  | PyDict entries =>
      match assoc k entries with
      | Some v => Ok v
      | None => Raise KeyError
      end
  | _ => Raise TypeError
  end.

(** The items of [l[:n]], for an [int] [n]. *)
Definition slice_to {A} (l : list A) (n : Z) : list A :=
  if (0 <=? n)%Z then take (Z.to_nat n) l
  else take (length l - Z.to_nat (- n)) l.

(** [o[:n]] *)
Definition slice (o : PyObj) (n : Z) : Result PyObj :=
  match o with
  | PyList items => Ok (PyList (slice_to items n))
  | PyTuple _ items => Ok (PyTuple EmptyString (slice_to items n))
  | PyId i => Ok (PyTuple EmptyString (slice_to [PyStr (value i)] n))
  | PyStr s =>
      Ok (PyStr (string_of_list_ascii (slice_to (list_ascii_of_string s) n)))
  | _ => Raise TypeError
  end.

(** [enumerate(l)] *)
Definition enumerate {A} (l : list A) : list (Z * A) :=
  zip (seqZ 0 (Z.of_nat (length l))) l.

End Py.

(** ** [models.py] *)
Module models.

(** [AcfunId.__eq__] *)
Definition __eq__ (self : AcfunId) (other : PyObj) : bool :=
  match other with
  | PyId o => String.eqb (value self) (value o)   (* isinstance(other, AcfunId) *)
  | _ => false
  end.

(** [AcfunId.__str__] and [AcfunId.__repr__] *)
Definition __str__ (self : AcfunId) : string := value self.

(** [Uploader(uid=..., name=...)] *)
Definition Uploader (uid : AcfunId) (name : string) : PyObj :=
  PyTuple "Uploader" [PyId uid; PyStr name].

(** [PartVideoMetadata(vid=..., title=...)] *)
Definition PartVideoMetadata (vid : AcfunId) (title : string) : PyObj :=
  PyTuple "PartVideoMetadata" [PyId vid; PyStr title].

(** [MultiPartInfo(has_multi_part=..., part_list=...)] *)
Definition MultiPartInfo (has_multi_part : bool) (part_list : list PyObj) : PyObj :=
  PyTuple "MultiPartInfo" [PyBool has_multi_part; PyList part_list].

Section hashing.
(** The built-in [hash] on [str]. *)
Variable str_hash : string → Z.

(** [AcfunId.__hash__] *)
Definition __hash__ (self : AcfunId) : Z := str_hash (value self).

(** A [dict] keyed by identifiers, as the interpreter looks keys up: an
    entry is hit when the hashes agree and [==] holds. *)
Definition same_key (k k' : AcfunId) : bool :=
  (__hash__ k =? __hash__ k')%Z && __eq__ k' (PyId k).

Fixpoint dict_get {V} (d : list (AcfunId * V)) (k : AcfunId) : option V :=
  match d with
  | (k', v) :: rest => if same_key k k' then Some v else dict_get rest k
  | [] => None
  end.

Fixpoint dict_set {V} (d : list (AcfunId * V)) (k : AcfunId) (v : V)
  : list (AcfunId * V) :=
  match d with
  | (k', v') :: rest =>
      if same_key k k' then (k', v) :: rest else (k', v') :: dict_set rest k v
  | [] => [(k, v)]
  end.
End hashing.

End models.

(** ** The parsed page: what [BeautifulSoup] and its selectors give *)
Module bs4.

Inductive Tag :=
| Element (name : string) (attrs : list (string * string)) (contents : list Tag)
| NavigableString (s : string).

(** An element together with its ancestors, nearest first. *)
Definition Node : Type := Tag * list Tag.

Fixpoint lookup_attr (k : string) (attrs : list (string * string)) : option string :=
  match attrs with
  | (k', v) :: rest => if String.eqb k k' then Some v else lookup_attr k rest
  | [] => None
  end.

Definition attrs_of (t : Tag) : list (string * string) :=
  match t with
  | Element _ a _ => a
  | NavigableString _ => []
  end.

(** [tag.get(k, d)] *)
Definition get (n : Node) (k d : string) : string :=
  default d (lookup_attr k (attrs_of n.1)).

(** [tag.has_attr(k)] *)
Definition has_attr (n : Node) (k : string) : bool :=
  bool_decide (is_Some (lookup_attr k (attrs_of n.1))).

(** [tag[k]] *)
Definition getitem (n : Node) (k : string) : Result string :=
  match lookup_attr k (attrs_of n.1) with
  | Some v => Ok v
  | None => Raise KeyError
  end.

(** The strings below a tag, in document order. *)
Fixpoint strings (t : Tag) : list string :=
  match t with
  | NavigableString s => [s]
  | Element _ _ cs => flat_map strings cs
  end.

Definition concat_strings (l : list string) : string :=
  foldr String.append EmptyString l.

(** [tag.text] *)
Definition text (n : Node) : string := concat_strings (strings n.1).

(** [tag.get_text(strip=True)]: every string is stripped and the empty ones
    are dropped. *)
Definition get_text_strip (n : Node) : string :=
  concat_strings
    (filter (λ s, s ≠ EmptyString) (Text.strip <$> strings n.1)).

(** A compound selector: an optional tag name and an optional class. *)
Record Compound := { sel_name : option string; sel_class : option string }.

Inductive Combinator := Descendant | Child.

(** A complex selector, read from the right: the compound the subject has to
    match, then what has to hold further up. *)
Definition Selector : Type := Compound * list (Combinator * Compound).

Definition has_class (c : string) (t : Tag) : bool :=
  match lookup_attr "class" (attrs_of t) with
  | Some v => bool_decide (c ∈ String.words v)
  | None => false
  end.

Definition matches (c : Compound) (t : Tag) : bool :=
  match t with
  | NavigableString _ => false
  | Element name _ _ =>
      from_option (String.eqb name) true (sel_name c)
      && from_option (λ k, has_class k t) true (sel_class c)
  end.

Fixpoint holds_up (rest : list (Combinator * Compound)) (anc : list Tag) : bool :=
  match rest with
  | [] => true
  | (Child, c) :: rest' =>
      match anc with
      | a :: anc' => matches c a && holds_up rest' anc'
      | [] => false
      end
  | (Descendant, c) :: rest' =>
      (fix some_ancestor (anc : list Tag) : bool :=
         match anc with
         | a :: anc' => (matches c a && holds_up rest' anc') || some_ancestor anc'
         | [] => false
         end) anc
  end.

Definition selects (sel : Selector) (n : Node) : bool :=
  matches sel.1 n.1 && holds_up sel.2 n.2.

(** A tag and its descendants, in document order. *)
Fixpoint walk (anc : list Tag) (t : Tag) : list Node :=
  match t with
  | NavigableString _ => []
  | Element _ _ cs => (t, anc) :: flat_map (walk (t :: anc)) cs
  end.

Definition descendants (n : Node) : list Node :=
  match n.1 with
  | Element _ _ cs => flat_map (walk (n.1 :: n.2)) cs
  | NavigableString _ => []
  end.

(** [tag.select(sel)] *)
Definition select (sel : Selector) (n : Node) : list Node :=
  filter (λ d, Is_true (selects sel d)) (descendants n).

(** [tag.select_one(sel)] *)
Definition select_one (sel : Selector) (n : Node) : option Node :=
  head (select sel n).

(** [tag.find_all(name, class_=cls)] *)
Definition find_all (name cls : string) (n : Node) : list Node :=
  select ({| sel_name := Some name; sel_class := Some cls |}, []) n.

(** [tag.find(name, class_=cls)] *)
Definition find (name cls : string) (n : Node) : option Node :=
  head (find_all name cls n).

Definition by_class (cls : string) : Compound :=
  {| sel_name := None; sel_class := Some cls |}.
Definition by_name (name : string) : Compound :=
  {| sel_name := Some name; sel_class := None |}.
Definition by_name_class (name cls : string) : Compound :=
  {| sel_name := Some name; sel_class := Some cls |}.

End bs4.

(** ** The world outside the program *)

(** What a [requests.get] meets.  [intact = false]: the connection breaks
    while the body is transferred. *)
Record Reply := mkReply {
  status_ok : bool;                  (* a 2xx status *)
  content_length : option string;    (* the Content-Length header *)
  body : string;
  intact : bool
}.

Inductive Response :=
| Unreachable
| Answer (r : Reply).

(** How a [subprocess.run(..., check=True)] ends. *)
Inductive ProcResult :=
| Exit0
| ExitNonZero        (* CalledProcessError *)
| NoSuchProgram      (* FileNotFoundError *)
| NotExecutable.     (* PermissionError *)

Inductive Event :=
| Get (url : string) (params : list (string * PyObj))
| Run (argv : list string)
| Sleep (ms : Z).

Record World := mkWorld {
  fs : gset string;             (* the paths that exist *)
  net : list Response;          (* what the coming requests will meet *)
  entropy : list byte;          (* what os.urandom will deliver *)
  procs : list ProcResult;      (* how the coming sub-processes will end *)
  clock : Z;                    (* milliseconds since the epoch *)
  log : list Event              (* what the program did, oldest first *)
}.

(** The library functions whose results the code only passes on. *)
Class Runtime := {
  html_parser : string → bs4.Tag;           (* BeautifulSoup(text, "html.parser") *)
  json_loads : string → option PyObj;       (* json.loads; None: JSONDecodeError *)
  strptime : string → string → option Z;    (* datetime.strptime; None: ValueError *)
  repr : PyObj → string                     (* str() of a value that is no str *)
}.

(** Computations: a state over [World] that may end in an exception.  The
    world reached when the exception is raised is kept. *)
Definition M (A : Type) : Type := World → Result A * World.

Definition ret {A} (a : A) : M A := λ w, (Ok a, w).

Definition raise {A} (e : Exn) : M A := λ w, (Raise e, w).

Definition bind {A B} (c : M A) (k : A → M B) : M B :=
  λ w, match c w with
       | (Ok a, w') => k a w'
       | (Raise e, w') => (Raise e, w')
       end.

Definition lift {A} (r : Result A) : M A := λ w, (r, w).

(** [try: c  except <classes>: h] *)
Definition try_except {A} (c : M A) (caught : Exn → bool) (h : M A) : M A :=
  λ w, match c w with
       | (Ok a, w') => (Ok a, w')
       | (Raise e, w') => if caught e then h w' else (Raise e, w')
       end.

Definition Exception (e : Exn) : bool := true.

Notation "'let*' x ':=' c 'in' k" := (bind c (λ x, k))
  (at level 10, x pattern, c at level 100, k at level 200).
Notation "c ;;; k" := (bind c (λ _, k))
  (at level 100, k at level 200, right associativity).

Definition emit (e : Event) : M unit :=
  λ w, (Ok tt, mkWorld (fs w) (net w) (entropy w) (procs w) (clock w) (log w ++ [e])).

Definition next_response : M Response :=
  λ w, (Ok (hd Unreachable (net w)),
        mkWorld (fs w) (tl (net w)) (entropy w) (procs w) (clock w) (log w)).

Definition next_proc : M ProcResult :=
  λ w, (Ok (hd NoSuchProgram (procs w)),
        mkWorld (fs w) (net w) (entropy w) (tl (procs w)) (clock w) (log w)).

Definition set_fs (f : gset string → gset string) : M unit :=
  λ w, (Ok tt, mkWorld (f (fs w)) (net w) (entropy w) (procs w) (clock w) (log w)).

Definition get_fs : M (gset string) := λ w, (Ok (fs w), w).

(** [requests.get(url, params=...)]: the whole body is read before the call
    returns, so a connection that breaks raises here. *)
Definition requests_get (url : string) (params : list (string * PyObj)) : M Reply :=
  emit (Get url params);;;
  let* r := next_response in
  match r with
  | Unreachable => raise RequestException
  | Answer a => if intact a then ret a else raise RequestException
  end.

(** [requests.get(url, stream=True)]: only the headers are read. *)
Definition requests_get_stream (url : string) : M Reply :=
  emit (Get url []);;;
  let* r := next_response in
  match r with
  | Unreachable => raise RequestException
  | Answer a => ret a
  end.

(** [response.raise_for_status()] *)
Definition raise_for_status (r : Reply) : M unit :=
  if status_ok r then ret tt else raise RequestException.

(** [os.urandom(n)]; an exhausted source goes on with zero bytes. *)
Definition os_urandom (n : nat) : M (list byte) :=
  λ w, (Ok (take n (entropy w ++ replicate n x00)),
        mkWorld (fs w) (net w) (drop n (entropy w)) (procs w) (clock w) (log w)).

(** [subprocess.run(argv, check=True, capture_output=True)] *)
Definition subprocess_run (argv : list string) : M unit :=
  emit (Run argv);;;
  let* p := next_proc in
  match p with
  | Exit0 => ret tt
  | ExitNonZero => raise CalledProcessError
  | NoSuchProgram => raise FileNotFoundError
  | NotExecutable => raise PermissionError
  end.

(** [time.sleep]; the duration is in milliseconds here. *)
Definition time_sleep (ms : Z) : M unit :=
  emit (Sleep ms);;;
  λ w, (Ok tt, mkWorld (fs w) (net w) (entropy w) (procs w) (clock w + ms) (log w)).

(** [int(time.time() * 1000)] *)
Definition time_ms : M Z := λ w, (Ok (clock w), w).

(** [datetime.now()] *)
Definition datetime_now : M PyObj := λ w, (Ok (PyDatetime (clock w)), w).

(** [open(path, "wb")]: the file exists from now on. *)
Definition open_wb (path : string) : M unit := set_fs (λ f, {[path]} ∪ f).

(** A NUL character in a path: Python refuses such a path with [ValueError]
    (embedded null byte) before any system call is made. *)
Fixpoint has_nul (path : string) : bool :=
  match path with
  | String c rest => Ascii.eqb c "000" || has_nul rest
  | EmptyString => false
  end.

(** The part of a path after its last slash, when it has a slash. *)
Fixpoint after_last_slash (path : string) : option string :=
  match path with
  | String c rest =>
      match after_last_slash rest with
      | Some name => Some name
      | None => if Ascii.eqb c "/" then Some rest else None
      end
  | EmptyString => None
  end.

(** [os.path.basename(path)] *)
Definition basename (path : string) : string :=
  default path (after_last_slash path).

(** The longest file name, in bytes, that the file system takes; a longer
    one makes the system call fail with [ENAMETOOLONG]. *)
Definition NAME_MAX : nat := 255.

(** [os.rename(src, dst)].  The source is looked up before the name of the
    destination is. *)
Definition os_rename (src dst : string) : M unit :=
  if has_nul src || has_nul dst then raise ValueError
  else
    let* f := get_fs in
    if bool_decide (src ∈ f) then
      if NAME_MAX <? String.length (basename dst) then raise OSError
      else set_fs (λ f, {[dst]} ∪ f ∖ {[src]})
    else raise FileNotFoundError.

(** [os.remove(path)] *)
Definition os_remove (path : string) : M unit :=
  let* f := get_fs in
  if bool_decide (path ∈ f) then set_fs (λ f, f ∖ {[path]})
  else raise FileNotFoundError.

(** [for x in l: body], threading the loop's variables [acc]. *)
Fixpoint for_each {A S} (l : list A) (body : A → S → M S) (acc : S) : M S :=
  match l with
  | [] => ret acc
  | x :: rest => let* acc' := body x acc in for_each rest body acc'
  end.

(** A [str] where the code needs one. *)
Definition as_str (o : PyObj) : Result string :=
  match o with
  | PyStr s => Ok s
  | _ => Raise TypeError
  end.

(** [str(o)], which is also what an f-string does to an operand. *)
Definition to_str `{Runtime} (o : PyObj) : string :=
  match o with
  | PyStr s => s
  | PyId i => models.__str__ i
  | _ => repr o
  end.

(** ** [extractor.py] *)
Module extractor.
Section extractor.
Context `{Runtime}.

Definition base_url : string := "https://www.acfun.cn".

(** [BeautifulSoup(text, "html.parser")], as the node the selectors start
    from. *)
Definition BeautifulSoup (markup : string) : bs4.Node := (html_parser markup, []).

(** [VideoMetadata(vid=..., ..., has_multi_p=..., multi_p=...)] as
    [get_video_info] builds it: a [TypedDict] call makes a [dict] of its
    keyword arguments. *)
Definition VideoMetadata (vid : AcfunId) (title cover_url : string)
    (uploader upload_date : PyObj) (has_multi_p : bool) (multi_p : list PyObj)
  : PyObj :=
  PyDict [("vid", PyId vid); ("title", PyStr title); ("cover_url", PyStr cover_url);
          ("uploader", uploader); ("upload_date", upload_date);
          ("has_multi_p", PyBool has_multi_p); ("multi_p", PyList multi_p)].

(** The title a part gets when its entry has no [title] attribute. *)
Definition unknown_part_title : string := "未知标题".

(** One [li] of the part list, lines 165-177. *)
Definition part_of_li (li_elem : bs4.Node) : PyObj :=
  let title := bs4.get li_elem "title" unknown_part_title in
  let part_vid :=
    match Text.search_part_vid (bs4.get li_elem "data-href" EmptyString) with
    | Some g => g
    | None => EmptyString
    end in
  models.PartVideoMetadata (Vid part_vid) title.

(** [AcFunExtractor.get_multi_p_info]; [vid_str] is [vid.value] or
    [str(vid)]. *)
Definition get_multi_p_info (vid_str : string) : M PyObj :=
  let video_url := base_url +:+ "/v/ac" +:+ vid_str in
  try_except
    (let* response := requests_get video_url [] in
     raise_for_status response;;;
     let soup := BeautifulSoup (body response) in
     match bs4.find "div" "part" soup with
     | None => ret (models.MultiPartInfo false [])
     | Some part_list_div =>
         let part_li_elems := bs4.find_all "li" "single-p" part_list_div in
         ret (models.MultiPartInfo true (part_of_li <$> part_li_elems))
     end)
    Exception
    (ret (PyList [])).

(** Lines 70-83: the uploader's name and id. *)
Definition uploader_of (soup : bs4.Node) : string * string :=
  match bs4.select_one (bs4.by_class "up-info", []) soup with
  | Some up_info_elem =>
      match bs4.select_one (bs4.by_class "up-name", []) up_info_elem with
      | Some up_name_elem =>
          let uploader_name := Text.strip (bs4.text up_name_elem) in
          let href := bs4.get up_name_elem "href" EmptyString in
          match Text.search_digits "/u/" href with
          | Some uid => (uploader_name, uid)
          | None => (uploader_name, "0")
          end
      | None => ("Unknown", "0")
      end
  | None => ("Unknown", "0")
  end.

(** Lines 105-112: the loop over what [get_multi_p_info] returned. *)
Definition collect_parts (part_list : PyObj) : M (list PyObj) :=
  let* parts := lift (Py.iter part_list) in
  for_each parts
    (λ part multi_p,
       let* part_url := lift (Py.getitem part "url") in
       let* part_url := lift (as_str part_url) in
       match Text.search_digits "ac" part_url with
       | Some g => ret (multi_p ++ [PyId (Vid g)])
       | None => ret multi_p
       end)
    [].

(** [AcFunExtractor.get_video_info] *)
Definition get_video_info (vid_str : string) : M PyObj :=
  let video_url := base_url +:+ "/v/ac" +:+ vid_str in
  try_except
    (let* response := requests_get video_url [] in
     raise_for_status response;;;
     let soup := BeautifulSoup (body response) in
     let title :=
       match bs4.select_one (bs4.by_name_class "h1" "title", []) soup with
       | Some title_elem => Text.strip (bs4.text title_elem)
       | None => "Unknown Title"
       end in
     let '(uploader_name, uploader_uid) := uploader_of soup in
     let* now := datetime_now in
     let upload_date :=
       match bs4.select_one
               (bs4.by_name "time", [(bs4.Descendant, bs4.by_class "video-info-main")])
               soup with
       | Some date_elem =>
           match strptime (Text.strip (bs4.text date_elem)) "%Y-%m-%d %H:%M:%S" with
           | Some t => PyDatetime t
           | None => now
           end
       | None => now
       end in
     let cover_url :=
       match bs4.select_one
               (bs4.by_name "img", [(bs4.Descendant, bs4.by_class "video-cover")])
               soup with
       | Some cover_elem =>
           if bs4.has_attr cover_elem "src"
           then bs4.get cover_elem "src" EmptyString
           else EmptyString
       | None => EmptyString
       end in
     let* part_list := get_multi_p_info vid_str in
     let* n := (if Py.truthy part_list then lift (Py.len part_list) else ret 0%Z) in
     let* multi :=
       (if Py.truthy part_list && (1 <? n)%Z
        then let* multi_p := collect_parts part_list in ret (true, multi_p)
        else ret (false, [])) in
     ret (VideoMetadata (Vid vid_str) title cover_url
            (models.Uploader (Uid uploader_uid) uploader_name)
            upload_date multi.1 multi.2))
    Exception
    (ret PyNone).

(** [VideoMetadata(...)] as [_parse_video_page] builds it: six keys. *)
Definition listed_video (vid : AcfunId) (title cover_url : string)
    (uploader upload_date : PyObj) : PyObj :=
  PyDict [("vid", PyId vid); ("title", PyStr title); ("cover_url", PyStr cover_url);
          ("uploader", uploader); ("upload_date", upload_date);
          ("multi_p", PyNone)].

(** One [a.ac-space-video] of a catalogue page, lines 294-330. *)
Definition video_of_item (uploader : PyObj) (item : bs4.Node) : PyObj :=
  let title_text :=
    match bs4.select_one (bs4.by_name_class "p" "title", []) item with
    | Some title_elem => bs4.get_text_strip title_elem
    | None => EmptyString
    end in
  let image_url :=
    match bs4.select_one (bs4.by_name "img", [(bs4.Descendant, bs4.by_name "figure")]) item with
    | Some image_elem =>
        if bs4.has_attr image_elem "src"
        then Text.split_head "?" (bs4.get image_elem "src" EmptyString)
        else EmptyString
    | None => EmptyString
    end in
  let href := bs4.get item "href" EmptyString in
  let pub_date :=
    match bs4.select_one (bs4.by_class "date", []) item with
    | Some date_elem =>
        match strptime (bs4.get_text_strip date_elem) "%Y/%m/%d" with
        | Some t => PyDatetime t
        | None => PyNone
        end
    | None => PyNone
    end in
  let vid := default EmptyString (Text.search_digits "ac" href) in
  listed_video (Vid vid) title_text image_url uploader pub_date.

(** [AcFunExtractor._parse_video_page] *)
Definition _parse_video_page (soup : bs4.Node) (uploader : PyObj) : list PyObj :=
  video_of_item uploader <$> bs4.select (bs4.by_name_class "a" "ac-space-video", []) soup.

(** Line 213: the uploader's name on the catalogue page. *)
Definition uploader_name_of (soup : bs4.Node) : Result string :=
  match bs4.select_one
          (bs4.by_name_class "span" "text-overflow",
           [(bs4.Child, bs4.by_name_class "span" "name")]) soup with
  | Some uploader_elem => bs4.getitem uploader_elem "title"
  | None => Ok "Unknown"
  end.

(** Lines 220-221: the declared number of videos. *)
Definition video_count_of (soup : bs4.Node) : Result Z :=
  match bs4.select_one
          (bs4.by_name "span",
           [(bs4.Child, bs4.by_name_class "li" "active"); (bs4.Child, bs4.by_name "ul");
            (bs4.Child, bs4.by_name_class "div" "tab");
            (bs4.Child, bs4.by_name_class "div" "wp")]) soup with
  | Some video_count_elem =>
      match Text.int (bs4.text video_count_elem) with
      | Some n => Ok n
      | None => Raise ValueError
      end
  | None => Ok 0%Z
  end.

(** Line 235 *)
Definition total_pages (video_count : Z) : Z :=
  (video_count `div` 20 + (if 0 <? video_count `mod` 20 then 1 else 0))%Z.

Definition page_params (page timestamp : Z) : list (string * PyObj) :=
  [("quickViewId", PyStr "ac-space-video-list"); ("reqID", PyInt page);
   ("ajaxpipe", PyInt 1); ("type", PyStr "video"); ("order", PyStr "newest");
   ("page", PyInt page); ("pageSize", PyInt 20); ("t", PyInt timestamp)].

(** [json_obj.get("html", "")] *)
Definition get_html (json_obj : PyObj) : Result PyObj :=
  match json_obj with
  | PyDict entries => Ok (default (PyStr EmptyString) (Py.assoc "html" entries))
  | _ => Raise AttributeError
  end.

(** The body of the loop over the pages 2, 3, ..., lines 239-273. *)
Definition fetch_page (url : string) (uploader : PyObj) (page : Z)
    (video_list : list PyObj) : M (list PyObj) :=
  let* timestamp := time_ms in
  try_except
    (let* response := requests_get url (page_params page timestamp) in
     raise_for_status response;;;
     let json_text := Text.split_head "/*<!-- fetch-stream -->*/" (body response) in
     let* json_obj :=
       lift (match json_loads json_text with
             | Some o => Ok o
             | None => Raise ValueError
             end) in
     let* html_content := lift (get_html json_obj) in
     let* html_content := lift (as_str html_content) in
     let soup := BeautifulSoup html_content in
     let video_list := video_list ++ _parse_video_page soup uploader in
     time_sleep 500;;;
     ret video_list)
    Exception
    (ret video_list).

(** [range(a, b)] *)
Definition range (a b : Z) : list Z := seqZ a (b - a).

(** [AcFunExtractor.get_up_videos] *)
Definition get_up_videos (uid_str : string) (fetch_all_pages : bool) : M PyObj :=
  let url := base_url +:+ "/u/" +:+ uid_str in
  try_except
    (let* response := requests_get url [] in
     raise_for_status response;;;
     let soup := BeautifulSoup (body response) in
     let* uploader_name := lift (uploader_name_of soup) in
     let uploader_profile := models.Uploader (Uid uid_str) uploader_name in
     let* video_count := lift (video_count_of soup) in
     let video_list := _parse_video_page soup uploader_profile in
     let* video_list :=
       (if fetch_all_pages && (20 <? video_count)%Z
        then for_each (range 2 (total_pages video_count + 1))
               (fetch_page url uploader_profile) video_list
        else ret video_list) in
     ret (PyList video_list))
    (λ e, match e with RequestException => true | _ => false end)
    (ret PyNone).

End extractor.
End extractor.

(** ** [downloader.py] *)
Module downloader.

(** One entry of a stream set: the two locations of a quality tier. *)
Record Stream := mkStream { video : string; audio : string }.

Definition qualities : list string := ["1080p"; "720p"; "480p"; "360p"].

(** [l.index(x)] *)
Fixpoint index (x : string) (l : list string) : option nat :=
  match l with
  | [] => None
  | y :: rest => if String.eqb x y then Some 0 else S <$> index x rest
  end.

(** Line 103 *)
Definition quality_index (quality : string) : nat :=
  default 1 (index quality qualities).

(** The two loops of lines 106-112 and 116-121: the tiers of the given
    indices are tried in turn and the first one in [streams] ends the loop.
    The label [q] is returned with the entry. *)
Fixpoint scan (streams : gmap string Stream) (idxs : list nat)
  : option (string * Stream) :=
  match idxs with
  | [] => None
  | q_idx :: rest =>
      let q := nth q_idx qualities EmptyString in
      match streams !! q with
      | Some s => Some (q, s)
      | None => scan streams rest
      end
  end.

(** Lines 99-121.  An entry is a [dict] of two keys, which is never falsy,
    so [not selected_stream] says that nothing was selected. *)
Definition select_stream (streams : gmap string Stream) (quality : string)
  : option (string * Stream) :=
  let quality_idx := quality_index quality in
  match scan streams (seq quality_idx (length qualities - quality_idx)) with
  | Some sel => Some sel
  | None =>
      if 0 <? quality_idx then scan streams (rev (seq 0 quality_idx)) else None
  end.

(** The dictionary of lines 213-223. *)
Definition placeholder_streams (vid : string) : gmap string Stream :=
  {[ "720p" := {| video := "https://example.com/video/" +:+ vid +:+ "_720p.m3u8";
                  audio := "https://example.com/audio/" +:+ vid +:+ ".m3u8" |};
     "480p" := {| video := "https://example.com/video/" +:+ vid +:+ "_480p.m3u8";
                  audio := "https://example.com/audio/" +:+ vid +:+ ".m3u8" |} ]}.

Section downloader.
Context `{Runtime}.

(** [self.output_dir] *)
Variable output_dir : string.

(** [AcFunDownloader._get_video_streams] *)
Definition _get_video_streams (vid : string) : M (option (gmap string Stream)) :=
  let video_url := "https://www.acfun.cn/v/ac" +:+ vid in
  try_except
    (let* response := requests_get video_url [] in
     raise_for_status response;;;
     match Text.search_videoInfo (body response) with
     | None => ret None
     | Some video_info_str =>
         let* video_info :=
           lift (match json_loads video_info_str with
                 | Some o => Ok o
                 | None => Raise ValueError
                 end) in
         ret (Some (placeholder_streams vid))
     end)
    Exception
    (ret None).

Definition temp_path (stream_type : string) (token : list byte) : string :=
  Text.path_join output_dir ("temp_" +:+ stream_type +:+ "_" +:+ Text.hex token).

(** [AcFunDownloader._download_stream].  The file is created by [open]; a
    connection that breaks while the chunks are written raises after that. *)
Definition _download_stream (url stream_type : string) : M (option string) :=
  try_except
    (let* token := os_urandom 4 in
     let temp_file := temp_path stream_type token in
     let* response := requests_get_stream url in
     raise_for_status response;;;
     let* total_size :=
       lift (match content_length response with
             | Some v => match Text.int v with Some n => Ok n | None => Raise ValueError end
             | None => Ok 0%Z
             end) in
     open_wb temp_file;;;
     (if intact response then ret tt else raise RequestException);;;
     ret (Some temp_file))
    Exception
    (ret None).

Definition unavailable (e : Exn) : bool :=
  match e with
  | CalledProcessError | FileNotFoundError => true
  | _ => false
  end.

Definition merge_command (video_path audio_path output_filename : string) : list string :=
  ["ffmpeg"; "-i"; video_path; "-i"; audio_path;
   "-c:v"; "copy"; "-c:a"; "aac"; "-strict"; "experimental"; output_filename].

(** Lines 144-175.  A merge that exits with status 0 has written its output
    file. *)
Definition merge (safe_title video_path audio_path output_filename : string) : M bool :=
  try_except
    (let* returned :=
       try_except
         (subprocess_run ["ffmpeg"; "-version"];;; ret None)
         unavailable
         (let video_output := Text.path_join output_dir (safe_title +:+ "_video.mp4") in
          let audio_output := Text.path_join output_dir (safe_title +:+ "_audio.m4a") in
          os_rename video_path video_output;;;
          os_rename audio_path audio_output;;;
          ret (Some true)) in
     match returned with
     | Some b => ret b
     | None =>
         subprocess_run (merge_command video_path audio_path output_filename);;;
         open_wb output_filename;;;
         os_remove video_path;;;
         os_remove audio_path;;;
         ret true
     end)
    Exception
    (ret false).

(** Lines 94-175 of [_download_single_video]: all that follows the call of
    [_get_video_streams].  The two downloads are handed to a thread pool and
    both are awaited; they write different files, and here the video is
    fetched before the audio. *)
Definition download_streams (streams : option (gmap string Stream))
    (title quality : string) : M bool :=
  match streams with
  | None => ret false
  | Some streams =>
      if bool_decide (streams = ∅) then ret false
      else
        match select_stream streams quality with
        | None => ret false
        | Some (q, selected_stream) =>
            let safe_title := Text.sanitize title in
            let output_filename := Text.path_join output_dir (safe_title +:+ ".mp4") in
            let* video_path := _download_stream (video selected_stream) "video" in
            let* audio_path := _download_stream (audio selected_stream) "audio" in
            match video_path, audio_path with
            | Some video_path, Some audio_path =>
                merge safe_title video_path audio_path output_filename
            | _, _ => ret false
            end
        end
  end.

(** [AcFunDownloader._download_single_video] *)
Definition _download_single_video (vid title quality : string) : M bool :=
  let* streams := _get_video_streams vid in
  download_streams streams title quality.

(** One part of a multi-part video, lines 63-74. *)
Definition download_part (video_info part_list : PyObj) (quality : string)
    (i_part : Z * PyObj) (success : bool) : M bool :=
  let '(i, part) := i_part in
  let* _ := lift (Py.len part_list) in
  let* _ := lift (Py.getitem part "title") in
  let* part_url := lift (Py.getitem part "url") in
  let* part_url := lift (as_str part_url) in
  match Text.search_digits "ac" part_url with
  | Some part_vid =>
      let* title := lift (Py.getitem video_info "title") in
      let* part_title := lift (Py.getitem part "title") in
      let part_filename :=
        to_str title +:+ "_p" +:+ to_str (PyInt (i + 1)) +:+ "_" +:+ to_str part_title in
      let* part_success := _download_single_video part_vid part_filename quality in
      ret (success && part_success)
  | None => ret false
  end.

(** [AcFunDownloader.download_video]; [vid_str] is [vid.value] or
    [str(vid)].  The title handed to [_download_single_video] has to be a
    [str] for the substitution of line 128; it is checked here, before the
    call. *)
Definition download_video (vid_str quality : string) : M bool :=
  let* video_info := extractor.get_video_info vid_str in
  if negb (Py.truthy video_info) then ret false
  else
    let* has_multi_p := lift (Py.getitem video_info "has_multi_p") in
    if Py.truthy has_multi_p then
      let* _ := lift (Py.getitem video_info "title") in
      let* part_list := extractor.get_multi_p_info vid_str in
      let* parts := lift (Py.iter part_list) in
      for_each (Py.enumerate parts) (download_part video_info part_list quality) true
    else
      let* title := lift (Py.getitem video_info "title") in
      let* title := lift (as_str title) in
      _download_single_video vid_str title quality.

Section methods.
(** The two methods that [download_up_videos] reaches through [self]; the
    tests put their own in place. *)
Variable get_up_videos : string → bool → M PyObj.
Variable download_video' : string → string → M bool.

(** The body of the loop of lines 296-305. *)
Definition download_listed (quality : string) (n : Z) (i_video : Z * PyObj)
    (successful : Z) : M Z :=
  let '(i, video) := i_video in
  let* _ := lift (Py.getitem video "title") in
  let* vid := lift (Py.getitem video "vid") in
  let* ok := download_video' (to_str vid) quality in
  let successful := if ok then (successful + 1)%Z else successful in
  (if (i <? n - 1)%Z then time_sleep 1000 else ret tt);;;
  ret successful.

(** [AcFunDownloader.download_up_videos], lines 283-308. *)
Definition download_up_videos_via (uid_str : string) (max_videos : option Z)
    (quality : string) : M Z :=
  let* user_info := get_up_videos uid_str true in
  if negb (Py.truthy user_info) then ret 0%Z
  else
    let* videos := lift (Py.getitem user_info "videos") in
    let* videos :=
      match max_videos with
      | Some n => if (n =? 0)%Z then ret videos else lift (Py.slice videos n)
      | None => ret videos
      end in
    let* _ := lift (Py.getitem user_info "user") in
    let* n := lift (Py.len videos) in
    let* items := lift (Py.iter videos) in
    for_each (Py.enumerate items) (download_listed quality n) 0%Z.
End methods.

(** [AcFunDownloader.download_up_videos] with the methods of the class. *)
Definition download_up_videos : string → option Z → string → M Z :=
  download_up_videos_via extractor.get_up_videos download_video.

End downloader.
End downloader.

(** ** What the statements below speak about *)

(** [isinstance(o, AcfunId)] *)
Definition is_identifier (o : PyObj) : bool :=
  match o with
  | PyId _ => true
  | _ => false
  end.

(** The tier of index [j] in the ordering 1080p, 720p, 480p, 360p. *)
Definition tier (j : nat) : string := nth j downloader.qualities EmptyString.

(** The stream set has no entry for the tier of index [j]. *)
Definition absent (S : gmap string downloader.Stream) (j : nat) : Prop :=
  S !! tier j = None.

(** The selection of lines 99-121 for a given index of the request. *)
Definition select_at (S : gmap string downloader.Stream) (i : nat)
  : option (string * downloader.Stream) :=
  match downloader.scan S (seq i (4 - i)) with
  | Some sel => Some sel
  | None => if 0 <? i then downloader.scan S (rev (seq 0 i)) else None
  end.

(** A reply that a page fetch can use: status 2xx and a body that arrived. *)
Definition usable (r : Response) : option string :=
  match r with
  | Answer a => if intact a && status_ok a then Some (body a) else None
  | Unreachable => None
  end.

(** A streamed download gets as far as opening its file: the reply has a 2xx
    status and a Content-Length that [int] accepts (or none). *)
Definition opened (r : Response) : bool :=
  match r with
  | Answer a =>
      status_ok a
      && match content_length a with
         | Some v => match Text.int v with Some _ => true | None => false end
         | None => true
         end
  | Unreachable => false
  end.

(** A streamed download succeeds: the file is opened and the body arrives
    whole. *)
Definition completes (r : Response) : bool :=
  match r with
  | Answer a => opened r && intact a
  | Unreachable => false
  end.

(** The random token of the next temporary file. *)
Definition next_token (entropy : list byte) : list byte :=
  take 4 (entropy ++ replicate 4 x00).

(** A computation only adds to the log. *)
Definition extends {A} (c : M A) : Prop :=
  ∀ w, ∃ rest, log (c w).2 = log w ++ rest.

(** Case analysis on the four tiers of a stream set, and on a small index. *)
Ltac split_tiers S :=
  destruct (S !! "1080p") eqn:?E0; destruct (S !! "720p") eqn:?E1;
  destruct (S !! "480p") eqn:?E2; destruct (S !! "360p") eqn:?E3.

Ltac small k := destruct k as [|[|[|[|?]]]]; try lia.

(** The first character of a name is a slash. *)
Definition leading_slash (name : string) : bool :=
  match name with
  | String "/" _ => true
  | _ => false
  end.

(** What [os.path.join] puts before a relative name. *)
Definition dir_prefix (dir : string) : string :=
  match dir with
  | EmptyString => EmptyString
  | _ => if Text.ends_with_slash dir then dir else dir +:+ "/"
  end.

Definition is_hex (c : ascii) : bool :=
  match c with
  | "0" | "1" | "2" | "3" | "4" | "5" | "6" | "7" | "8" | "9"
  | "a" | "b" | "c" | "d" | "e" | "f" => true
  | _ => false
  end%char.

(** What the two downloads of an acquisition meet, in a world [w] reached
    after the streams were resolved. *)
Definition video_reply (w : World) : Response := hd Unreachable (net w).
Definition audio_reply (w : World) : Response := hd Unreachable (tl (net w)).

(** The temporary files of the two downloads. *)
Definition video_temp (dir : string) (w : World) : string :=
  downloader.temp_path dir "video" (next_token (entropy w)).
Definition audio_temp (dir : string) (w : World) : string :=
  downloader.temp_path dir "audio" (next_token (drop 4 (entropy w))).

(** The file a download leaves behind, if it got as far as opening it. *)
Definition created (r : Response) (path : string) : gset string :=
  if opened r then {[path]} else ∅.

(** The world when both downloads have returned. *)
Definition after_downloads (dir : string) (s : downloader.Stream) (w : World) : World :=
  mkWorld
    (created (audio_reply w) (audio_temp dir w)
     ∪ (created (video_reply w) (video_temp dir w) ∪ fs w))
    (tl (tl (net w))) (drop 4 (drop 4 (entropy w))) (procs w) (clock w)
    (log w ++ [Get (downloader.video s) []; Get (downloader.audio s) []]).

(** The outputs of an acquisition. *)
Definition video_output (dir title : string) : string :=
  Text.path_join dir (Text.sanitize title +:+ "_video.mp4").
Definition audio_output (dir title : string) : string :=
  Text.path_join dir (Text.sanitize title +:+ "_audio.m4a").
Definition merged_output (dir title : string) : string :=
  Text.path_join dir (Text.sanitize title +:+ ".mp4").

(** The version probe reports the muxing tool as unavailable: it is not
    installed, or it exits with a status other than 0. *)
Definition tool_unavailable (p : ProcResult) : Prop :=
  p = NoSuchProgram ∨ p = ExitNonZero.

(** The five optional places of a video page are all missing: title,
    uploader block, timestamp, cover image and part list. *)
Definition bare (soup : bs4.Node) : Prop :=
  bs4.select_one (bs4.by_name_class "h1" "title", []) soup = None
  ∧ bs4.select_one (bs4.by_class "up-info", []) soup = None
  ∧ bs4.select_one
      (bs4.by_name "time", [(bs4.Descendant, bs4.by_class "video-info-main")]) soup = None
  ∧ bs4.select_one
      (bs4.by_name "img", [(bs4.Descendant, bs4.by_class "video-cover")]) soup = None
  ∧ bs4.find "div" "part" soup = None.

(** The entries of the part list of a page, in document order. *)
Definition part_entries (soup : bs4.Node) : option (list bs4.Node) :=
  bs4.find_all "li" "single-p" <$> bs4.find "div" "part" soup.

(** The page a request asks for: the landing page of an uploader is page 1,
    the further ones carry their number in the [page] parameter. *)
Definition page_of (e : Event) : option Z :=
  match e with
  | Get _ params =>
      Some (match Py.assoc "page" params with
            | Some (PyInt p) => p
            | _ => 1%Z
            end)
  | _ => None
  end.

Definition pages_fetched (events : list Event) : list Z := omap page_of events.

(** The ceiling of [n / d], in the words of the specification. *)
Definition ceil_div (n d : Z) : Z := (- ((- n) `div` d))%Z.

(** ** Pages and worlds for the examples *)

Definition document (contents : list bs4.Tag) : bs4.Tag :=
  bs4.Element "[document]" [] contents.

(** A video page with none of the optional places. *)
Definition bare_markup : string := "<html></html>".
Definition bare_page : bs4.Tag := document [bs4.Element "html" [] []].

(** A video page whose part list has one entry. *)
Definition one_part_markup : string :=
  "<html><div class='part'><ul><li class='single-p active' data-href='/v/ac12345_1' title='one'>one</li></ul></div></html>".
Definition one_part_page : bs4.Tag :=
  document
    [bs4.Element "html" []
       [bs4.Element "div" [("class", "part")]
          [bs4.Element "ul" []
             [bs4.Element "li"
                [("class", "single-p active"); ("data-href", "/v/ac12345_1");
                 ("title", "one")]
                [bs4.NavigableString "one"]]]]].

Definition count_block (n : string) : bs4.Tag :=
  bs4.Element "div" [("class", "wp")]
    [bs4.Element "div" [("class", "tab")]
       [bs4.Element "ul" []
          [bs4.Element "li" [("class", "active")]
             [bs4.Element "span" [] [bs4.NavigableString n]]]]].

Definition listed (href title : string) : bs4.Tag :=
  bs4.Element "a" [("class", "ac-space-video"); ("href", href)]
    [bs4.Element "p" [("class", "title")] [bs4.NavigableString title]].

(** The landing page of an uploader with three videos. *)
Definition three_videos_markup : string :=
  "<div class='wp'><div class='tab'><ul><li class='active'><span>3</span></li></ul></div></div><a class='ac-space-video' href='/v/ac11111'><p class='title'>one</p></a><a class='ac-space-video' href='/v/ac22222'><p class='title'>two</p></a><a class='ac-space-video' href='/v/ac33333'><p class='title'>three</p></a>".
Definition three_videos_page : bs4.Tag :=
  document
    [count_block "3"; listed "/v/ac11111" "one"; listed "/v/ac22222" "two";
     listed "/v/ac33333" "three"].

(** The landing page of an uploader who declares 45 videos. *)
Definition declared_45_markup : string :=
  "<div class='wp'><div class='tab'><ul><li class='active'><span>45</span></li></ul></div></div>".
Definition declared_45_page : bs4.Tag := document [count_block "45"].

(** A video page with a [window.videoInfo] blob. *)
Definition blob_markup : string := "<script>window.videoInfo = { };</script>".

(** A stand-in for the libraries: the parser knows the pages above, the JSON
    decoder accepts the blob of [blob_markup], no date is recognised. *)
Definition example_parser (markup : string) : bs4.Tag :=
  if String.eqb markup one_part_markup then one_part_page
  else if String.eqb markup three_videos_markup then three_videos_page
  else if String.eqb markup declared_45_markup then declared_45_page
  else bare_page.

Definition example_runtime : Runtime :=
  {| html_parser := example_parser;
     json_loads := λ s, if String.eqb s "{ }" then Some (PyDict []) else None;
     strptime := λ _ _, None;
     repr := λ _, EmptyString |}.

(** A reply with status 200 whose body arrives whole. *)
Definition answer (text : string) : Response := Answer (mkReply true None text true).

(** A world at time [1000] with an empty output directory, in which the
    coming requests meet [replies] and the coming processes end as [ends]. *)
Definition world (replies : list Response) (ends : list ProcResult) : World :=
  mkWorld ∅ replies [x00; x01; x02; x03; x04; x05; x06; x07] ends 1000 [].

(** A title of 246 characters: with the ending [_video.mp4] the name has 256
    characters, one more than [NAME_MAX]. *)
Definition long_title : string := foldr String EmptyString (replicate 246 "a"%char).

(** ** The batch loop with the stand-ins of [tests/test_downloader.py] *)

(** A listing as the tests give it: a [dict] with the videos under the key
    [videos]; every video is a [dict] with a title and an id. *)
Definition listed_entry (vid : string) : PyObj :=
  PyDict [("title", PyStr vid); ("vid", PyStr vid)].

Definition stub_listing (vids : list string) : string → bool → M PyObj :=
  λ _ _, ret (PyDict [("user", PyStr "up"); ("videos", PyList (listed_entry <$> vids))]).

(** A [download_video] whose outcome is given for every video id; a call
    leaves a mark in the log. *)
Definition stub_download (outcome : string → bool) : string → string → M bool :=
  λ vid _, emit (Run ["download_video"; vid]);;; ret (outcome vid).

Definition attempt_of (e : Event) : option string :=
  match e with
  | Run ["download_video"; vid] => Some vid
  | _ => None
  end.

(** The videos that were attempted, in the order of the attempts. *)
Definition attempts (events : list Event) : list string := omap attempt_of events.

(** The sequence that line 289-290 leaves: a cap of 0 is no cap. *)
Definition capped (vids : list string) (max_videos : option Z) : list string :=
  match max_videos with
  | Some n => if (n =? 0)%Z then vids else Py.slice_to vids n
  | None => vids
  end.

Definition succeeded (outcome : string → bool) (vids : list string) : Z :=
  Z.of_nat (length (filter (λ v, Is_true (outcome v)) vids)).

(** ** Further notions for the statements on the rest of the code *)

(** Every character of [s] is a digit. *)
Fixpoint all_digits (s : string) : bool :=
  match s with
  | String c s' => Text.is_digit c && all_digits s'
  | EmptyString => true
  end.

(** Every character of [s] is a lower-case hexadecimal digit. *)
Fixpoint all_hex (s : string) : bool :=
  match s with
  | String c s' => is_hex c && all_hex s'
  | EmptyString => true
  end.

(** [c] occurs in [s]. *)
Fixpoint occurs (c : ascii) (s : string) : bool :=
  match s with
  | String d s' => Ascii.eqb c d || occurs c s'
  | EmptyString => false
  end.

(** The first character of [s], if any, is no digit. *)
Definition no_leading_digit (s : string) : bool :=
  match s with
  | String c _ => negb (Text.is_digit c)
  | EmptyString => true
  end.

(** The value of a hexadecimal digit. *)
Definition unhex_digit (c : ascii) : N :=
  match c with
  | "0" => 0 | "1" => 1 | "2" => 2 | "3" => 3 | "4" => 4 | "5" => 5 | "6" => 6
  | "7" => 7 | "8" => 8 | "9" => 9 | "a" => 10 | "b" => 11 | "c" => 12
  | "d" => 13 | "e" => 14 | _ => 15
  end%char%N.

(** How the merge of an acquisition can fail once both streams are there:
    the version probe ends in an error that line 148 does not catch, or the
    probe succeeds and the merge command does not exit with status 0. *)
Definition merge_fails (ends : list ProcResult) : Prop :=
  hd NoSuchProgram ends = NotExecutable
  ∨ (hd NoSuchProgram ends = Exit0 ∧ hd NoSuchProgram (tl ends) ≠ Exit0).

(** What reading a catalogue may do: requests for the uploader's page, and
    pauses. *)
Definition catalogue_event (url : string) (e : Event) : bool :=
  match e with
  | Get url' _ => String.eqb url' url
  | Sleep _ => true
  | Run _ => false
  end.

(** ** Identifiers *)

Lemma same_key_refl_value str_hash (k k' : AcfunId) :
  value k = value k' → models.same_key str_hash k k' = true.
Proof.
  intros Hv. unfold models.same_key, models.__hash__, models.__eq__. cbn.
  rewrite Hv, Z.eqb_refl, String.eqb_refl. reflexivity.
Qed.

Lemma dict_get_set_same {V} str_hash (d : list (AcfunId * V)) k k' v :
  value k = value k' →
  models.dict_get str_hash (models.dict_set str_hash d k v) k' = Some v.
Proof.
  intros Hv. induction d as [|[k0 v0] d IH]; cbn.
  - rewrite same_key_refl_value by congruence. reflexivity.
  - destruct (models.same_key str_hash k k0) eqn:Hk; cbn.
    + assert (models.same_key str_hash k' k0 = true) as ->; [|reflexivity].
      revert Hk. unfold models.same_key, models.__hash__, models.__eq__. cbn.
      rewrite Hv. tauto.
    + assert (models.same_key str_hash k' k0 = false) as ->; [|exact IH].
      revert Hk. unfold models.same_key, models.__hash__, models.__eq__. cbn.
      rewrite Hv. tauto.
Qed.

(** C8. Two identifiers, of whatever identifier classes, compare equal exactly
    when their strings are equal; equal identifiers have equal hashes; and an
    entry stored in a dict under one identifier is found under every
    identifier that wraps the same string. *)
Theorem identifier_equality_and_hash
    (str_hash : string → Z) (c1 c2 : IdClass) (a b : string) :
  (models.__eq__ (mkId c1 a) (PyId (mkId c2 b)) = true ↔ a = b)
  ∧ (models.__eq__ (mkId c1 a) (PyId (mkId c2 b)) = true →
     models.__hash__ str_hash (mkId c1 a) = models.__hash__ str_hash (mkId c2 b))
  ∧ (∀ (V : Type) (d : list (AcfunId * V)) (v : V),
       models.dict_get str_hash (models.dict_set str_hash d (mkId c1 a) v) (mkId c2 a)
       = Some v).
Proof.
  split; [|split].
  - cbn. apply String.eqb_eq.
  - cbn. intros ->%String.eqb_eq. reflexivity.
  - intros V d v. apply dict_get_set_same. reflexivity.
Qed.

(** C10. Equality does not look at the identifier class: a video id and an
    uploader id over the same string are equal, in both orders; and against
    a value that is no identifier [__eq__] answers [False] (it is a total
    function into [bool], nothing is raised). *)
Theorem identifier_equality_ignores_class (s : string) (x : AcfunId) (o : PyObj) :
  models.__eq__ (Vid s) (PyId (Uid s)) = true
  ∧ models.__eq__ (Uid s) (PyId (Vid s)) = true
  ∧ (is_identifier o = false → models.__eq__ x o = false).
Proof.
  repeat split.
  - cbn. apply String.eqb_refl.
  - cbn. apply String.eqb_refl.
  - destruct o; cbn; congruence.
Qed.

(** ** Quality fallback *)

Lemma quality_index_lt q : downloader.quality_index q < 4.
Proof.
  unfold downloader.quality_index, downloader.qualities. cbn.
  repeat (destruct (String.eqb q _); cbn; [lia|]). lia.
Qed.

Lemma quality_index_of_tier j q :
  downloader.qualities !! j = Some q → downloader.quality_index q = j.
Proof.
  unfold downloader.qualities.
  destruct j as [|[|[|[|j]]]]; cbn; intros [= <-]; reflexivity.
Qed.

Lemma quality_index_default q :
  q ∉ downloader.qualities → downloader.quality_index q = 1.
Proof.
  unfold downloader.quality_index, downloader.qualities. intros Hq. cbn.
  destruct (String.eqb_spec q "1080p") as [->|_]; [exfalso; apply Hq; set_solver|].
  destruct (String.eqb_spec q "720p") as [->|_]; [exfalso; apply Hq; set_solver|].
  destruct (String.eqb_spec q "480p") as [->|_]; [exfalso; apply Hq; set_solver|].
  destruct (String.eqb_spec q "360p") as [->|_]; [exfalso; apply Hq; set_solver|].
  reflexivity.
Qed.

Lemma select_stream_at S q :
  downloader.select_stream S q = select_at S (downloader.quality_index q).
Proof. reflexivity. Qed.

Lemma select_at_some S i t s :
  i < 4 →
  select_at S i = Some (t, s) ↔
  ∃ j, j < 4 ∧ tier j = t ∧ S !! t = Some s ∧
    ((i ≤ j ∧ ∀ k, i ≤ k < j → absent S k)
     ∨ (j < i ∧ (∀ k, i ≤ k < 4 → absent S k) ∧ ∀ k, j < k < i → absent S k)).
Proof.
  intros Hi. unfold select_at, absent, tier, downloader.qualities.
  small i; cbn -[lookup]; split_tiers S; cbn -[lookup].
  all: split;
    [ intros [= <- <-];
      first
        [ (exists 0; cbn; repeat split; try lia; try assumption;
           first [ left; split; [lia|]; intros k Hk; small k; cbn; assumption
                 | right; repeat split; try lia; intros k Hk; small k; cbn; assumption ])
        | (exists 1; cbn; repeat split; try lia; try assumption;
           first [ left; split; [lia|]; intros k Hk; small k; cbn; assumption
                 | right; repeat split; try lia; intros k Hk; small k; cbn; assumption ])
        | (exists 2; cbn; repeat split; try lia; try assumption;
           first [ left; split; [lia|]; intros k Hk; small k; cbn; assumption
                 | right; repeat split; try lia; intros k Hk; small k; cbn; assumption ])
        | (exists 3; cbn; repeat split; try lia; try assumption;
           first [ left; split; [lia|]; intros k Hk; small k; cbn; assumption
                 | right; repeat split; try lia; intros k Hk; small k; cbn; assumption ]) ]
    | intros (j & Hj & <- & Hs & [[Hij Hk] | (Hji & Hk1 & Hk2)]);
      small j; cbn -[lookup] in *;
      try (pose proof (Hk 0 ltac:(lia)) as ?H0; cbn in H0);
      try (pose proof (Hk 1 ltac:(lia)) as ?H1; cbn in H1);
      try (pose proof (Hk 2 ltac:(lia)) as ?H2; cbn in H2);
      try (pose proof (Hk 3 ltac:(lia)) as ?H3; cbn in H3);
      try (pose proof (Hk1 0 ltac:(lia)) as ?H0; cbn in H0);
      try (pose proof (Hk1 1 ltac:(lia)) as ?H1; cbn in H1);
      try (pose proof (Hk1 2 ltac:(lia)) as ?H2; cbn in H2);
      try (pose proof (Hk1 3 ltac:(lia)) as ?H3; cbn in H3);
      try (pose proof (Hk2 0 ltac:(lia)) as ?H0; cbn in H0);
      try (pose proof (Hk2 1 ltac:(lia)) as ?H1; cbn in H1);
      try (pose proof (Hk2 2 ltac:(lia)) as ?H2; cbn in H2);
      try (pose proof (Hk2 3 ltac:(lia)) as ?H3; cbn in H3);
      congruence ].
Qed.

(** ** The log only grows *)

Lemma extends_ret {A} (a : A) : extends (ret a).
Proof. intros w. exists []. cbn. by rewrite app_nil_r. Qed.

Lemma extends_raise {A} e : extends (@raise A e).
Proof. intros w. exists []. cbn. by rewrite app_nil_r. Qed.

Lemma extends_lift {A} (r : Result A) : extends (lift r).
Proof. intros w. exists []. cbn. by rewrite app_nil_r. Qed.

Lemma extends_bind {A B} (c : M A) (k : A → M B) :
  extends c → (∀ a, extends (k a)) → extends (bind c k).
Proof.
  intros Hc Hk w. unfold bind. destruct (Hc w) as [r1 H1].
  destruct (c w) as [[a|e] w1]; cbn in *.
  - destruct (Hk a w1) as [r2 H2]. exists (r1 ++ r2).
    rewrite H2, H1. by rewrite app_assoc.
  - by exists r1.
Qed.

Lemma extends_try {A} (c h : M A) caught :
  extends c → extends h → extends (try_except c caught h).
Proof.
  intros Hc Hh w. unfold try_except. destruct (Hc w) as [r1 H1].
  destruct (c w) as [[a|e] w1]; cbn in *.
  - by exists r1.
  - destruct (caught e); cbn.
    + destruct (Hh w1) as [r2 H2]. exists (r1 ++ r2).
      rewrite H2, H1. by rewrite app_assoc.
    + by exists r1.
Qed.

Lemma extends_emit e : extends (emit e).
Proof. intros w. by exists [e]. Qed.

Lemma extends_set_fs f : extends (set_fs f).
Proof. intros w. exists []. cbn. by rewrite app_nil_r. Qed.

Lemma extends_if {A} (b : bool) (c d : M A) :
  extends c → extends d → extends (if b then c else d).
Proof. by destruct b. Qed.

Lemma extends_subprocess_run argv : extends (subprocess_run argv).
Proof.
  unfold subprocess_run. apply extends_bind; [apply extends_emit|]. intros _.
  apply extends_bind.
  - intros w. exists []. cbn. by rewrite app_nil_r.
  - intros []; auto using extends_ret, @extends_raise.
Qed.

Lemma extends_os_rename src dst : extends (os_rename src dst).
Proof.
  unfold os_rename. apply extends_if; [apply extends_raise|].
  apply extends_bind.
  - intros w. exists []. cbn. by rewrite app_nil_r.
  - intros f. apply extends_if; [|apply extends_raise].
    apply extends_if; auto using extends_set_fs, @extends_raise.
Qed.

Lemma extends_os_remove path : extends (os_remove path).
Proof.
  unfold os_remove. apply extends_bind.
  - intros w. exists []. cbn. by rewrite app_nil_r.
  - intros f. apply extends_if; auto using extends_set_fs, @extends_raise.
Qed.

Lemma extends_merge dir st vp ap out :
  extends (downloader.merge dir st vp ap out).
Proof.
  unfold downloader.merge.
  apply extends_try; [|apply extends_ret].
  apply extends_bind.
  - apply extends_try.
    + apply extends_bind; [apply extends_subprocess_run|]. intros _. apply extends_ret.
    + repeat (apply extends_bind; [apply extends_os_rename|]; intros _).
      apply extends_ret.
  - intros [b|]; [apply extends_ret|].
    apply extends_bind; [apply extends_subprocess_run|]; intros _.
    apply extends_bind; [apply extends_set_fs|]; intros _.
    repeat (apply extends_bind; [apply extends_os_remove|]; intros _).
    apply extends_ret.
Qed.

(** ** One streamed download *)

Lemma download_stream_run dir url ty w :
  let r := hd Unreachable (net w) in
  let temp := downloader.temp_path dir ty (next_token (entropy w)) in
  downloader._download_stream dir url ty w =
    (Ok (if completes r then Some temp else None),
     mkWorld (if opened r then {[temp]} ∪ fs w else fs w) (tl (net w))
       (drop 4 (entropy w)) (procs w) (clock w) (log w ++ [Get url []])).
Proof.
  destruct w as [f n en p c l]. unfold next_token. cbn -[take drop replicate].
  unfold downloader._download_stream, try_except, bind, os_urandom, requests_get_stream,
    emit, next_response, raise_for_status, lift, open_wb, set_fs, ret, raise.
  cbn -[take drop replicate Text.int].
  destruct n as [|[|[ok [v|] b i]] n]; cbn -[take drop replicate Text.int]; try reflexivity.
  - destruct ok; cbn -[take drop replicate Text.int]; [|reflexivity].
    destruct (Text.int v); cbn -[take drop replicate]; [|reflexivity].
    destruct i; reflexivity.
  - destruct ok; cbn -[take drop replicate]; [|reflexivity].
    destruct i; reflexivity.
Qed.

(** ** The stream resolver *)

Lemma get_video_streams_run `{Runtime} vid w :
  downloader._get_video_streams vid w =
    (Ok (text ← usable (hd Unreachable (net w));
         blob ← Text.search_videoInfo text;
         _ ← json_loads blob;
         Some (downloader.placeholder_streams vid)),
     mkWorld (fs w) (tl (net w)) (entropy w) (procs w) (clock w)
       (log w ++ [Get ("https://www.acfun.cn/v/ac" +:+ vid) []])).
Proof.
  destruct w as [f n en p c l].
  unfold downloader._get_video_streams, try_except, bind, requests_get, emit,
    next_response, raise_for_status, lift, ret, raise.
  cbn -[Text.search_videoInfo downloader.placeholder_streams].
  destruct n as [|[|[ok cl b i]] n];
    cbn -[Text.search_videoInfo downloader.placeholder_streams]; try reflexivity.
  destruct i, ok; cbn -[Text.search_videoInfo downloader.placeholder_streams];
    try reflexivity.
  destruct (Text.search_videoInfo b) as [blob|];
    cbn -[downloader.placeholder_streams]; [|reflexivity].
  destruct (json_loads blob); reflexivity.
Qed.

Lemma placeholder_lookup vid q :
  downloader.placeholder_streams vid !! q =
    if String.eqb q "720p"
    then Some (downloader.mkStream ("https://example.com/video/" +:+ vid +:+ "_720p.m3u8")
                 ("https://example.com/audio/" +:+ vid +:+ ".m3u8"))
    else if String.eqb q "480p"
    then Some (downloader.mkStream ("https://example.com/video/" +:+ vid +:+ "_480p.m3u8")
                 ("https://example.com/audio/" +:+ vid +:+ ".m3u8"))
    else None.
Proof.
  unfold downloader.placeholder_streams.
  destruct (String.eqb_spec q "720p") as [->|H1]; [by simplify_map_eq|].
  destruct (String.eqb_spec q "480p") as [->|H2]; by simplify_map_eq.
Qed.


(** ** Paths *)

Lemma append_cons (c : ascii) (a b : string) : String c a +:+ b = String c (a +:+ b).
Proof. reflexivity. Qed.

Lemma append_nil_l (a : string) : EmptyString +:+ a = a.
Proof. reflexivity. Qed.

Lemma append_assoc (a b c : string) : (a +:+ b) +:+ c = a +:+ b +:+ c.
Proof.
  induction a as [|x a IH]; [reflexivity|]. rewrite !append_cons. by rewrite IH.
Qed.

Lemma length_append (a b : string) :
  String.length (a +:+ b) = String.length a + String.length b.
Proof.
  induction a as [|x a IH]; [reflexivity|]. rewrite append_cons. cbn. by rewrite IH.
Qed.

Lemma append_same_length_tail (a b x y : string) :
  a +:+ x = b +:+ y → String.length x = String.length y → x = y.
Proof.
  revert b. induction a as [|c a IH]; intros [|d b] Heq Hlen;
    rewrite ?append_nil_l in Heq.
  - exact Heq.
  - exfalso. apply (f_equal String.length) in Heq.
    rewrite append_cons in Heq. cbn in Heq. rewrite length_append in Heq. lia.
  - exfalso. apply (f_equal String.length) in Heq.
    rewrite append_cons in Heq. cbn in Heq. rewrite length_append in Heq. lia.
  - rewrite !append_cons in Heq. injection Heq as _ Heq. by apply (IH b).
Qed.

Lemma path_join_relative dir name :
  leading_slash name = false → Text.path_join dir name = dir_prefix dir +:+ name.
Proof.
  intros Hn. unfold Text.path_join, dir_prefix.
  assert (match name with
          | String "/" _ => name
          | _ => match dir with
                 | EmptyString => name
                 | _ => if Text.ends_with_slash dir then dir +:+ name
                        else dir +:+ "/" +:+ name
                 end
          end =
          match dir with
          | EmptyString => name
          | _ => if Text.ends_with_slash dir then dir +:+ name
                 else dir +:+ "/" +:+ name
          end) as ->.
  { destruct name as [|c name]; [reflexivity|].
    destruct c as [[] [] [] [] [] [] [] []]; try reflexivity. discriminate Hn. }
  destruct dir as [|c dir]; [reflexivity|].
  destruct (Text.ends_with_slash (String c dir)); [reflexivity|].
  by rewrite append_assoc.
Qed.

Lemma sanitize_no_leading_slash title suffix :
  leading_slash suffix = false → leading_slash (Text.sanitize title +:+ suffix) = false.
Proof.
  intros Hs. destruct title as [|c title]; [exact Hs|].
  cbn. destruct c as [[] [] [] [] [] [] [] []]; reflexivity.
Qed.

Lemma next_token_length en : length (next_token en) = 4.
Proof.
  unfold next_token. rewrite length_take, length_app, length_replicate. lia.
Qed.

Lemma hex_digit_is_hex n : is_hex (Text.hex_digit n) = true.
Proof.
  unfold Text.hex_digit.
  destruct n as [|p]; [reflexivity|].
  do 4 (destruct p as [p|p|]; try reflexivity).
Qed.

(** The last four characters of the hexadecimal form of four bytes. *)
Lemma hex_tail tok :
  length tok = 4 →
  ∃ h c1 c2 c3 c4,
    Text.hex tok = h +:+ String c1 (String c2 (String c3 (String c4 EmptyString)))
    ∧ is_hex c1 = true.
Proof.
  destruct tok as [|b1 [|b2 [|b3 [|b4 [|]]]]]; try discriminate. intros _.
  exists (Text.hex [b1; b2]). do 4 eexists. split.
  - cbn. reflexivity.
  - apply hex_digit_is_hex.
Qed.

(** A name that ends in a dot and three more characters is not the name of a
    temporary file. *)
Lemma dotted_name_is_no_temp_name x c1 c2 c3 ty tok :
  length tok = 4 →
  x +:+ String "." (String c1 (String c2 (String c3 EmptyString)))
  ≠ "temp_" +:+ ty +:+ "_" +:+ Text.hex tok.
Proof.
  intros Hlen Heq. destruct (hex_tail tok Hlen) as (h & d1 & d2 & d3 & d4 & Hh & Hd).
  rewrite Hh, <- !append_assoc in Heq.
  apply append_same_length_tail in Heq; [|reflexivity].
  injection Heq as <-. discriminate Hd.
Qed.

(** ** One acquisition *)

Lemma scan_empty idxs : downloader.scan ∅ idxs = None.
Proof. induction idxs as [|i idxs IH]; [reflexivity|]. cbn. by rewrite lookup_empty. Qed.

Lemma select_stream_nonempty S q sel :
  downloader.select_stream S q = Some sel → S ≠ ∅.
Proof.
  intros Hsel ->. unfold downloader.select_stream in Hsel.
  rewrite !scan_empty in Hsel. by destruct (0 <? _).
Qed.

Lemma download_streams_run dir S title q t s w :
  downloader.select_stream S q = Some (t, s) →
  downloader.download_streams dir (Some S) title q w =
    if completes (video_reply w) && completes (audio_reply w)
    then downloader.merge dir (Text.sanitize title) (video_temp dir w) (audio_temp dir w)
           (merged_output dir title) (after_downloads dir s w)
    else (Ok false, after_downloads dir s w).
Proof.
  intros Hsel. unfold downloader.download_streams.
  rewrite bool_decide_eq_false_2 by by eapply select_stream_nonempty.
  rewrite Hsel. unfold bind at 1. rewrite download_stream_run.
  cbn zeta. unfold bind at 1. rewrite download_stream_run. cbn [fs net entropy procs clock log].
  assert (after_downloads dir s w =
          mkWorld
            (if opened (hd Unreachable (tl (net w)))
             then {[downloader.temp_path dir "audio" (next_token (drop 4 (entropy w)))]}
                  ∪ (if opened (hd Unreachable (net w))
                     then {[downloader.temp_path dir "video" (next_token (entropy w))]} ∪ fs w
                     else fs w)
             else if opened (hd Unreachable (net w))
                  then {[downloader.temp_path dir "video" (next_token (entropy w))]} ∪ fs w
                  else fs w)
            (tl (tl (net w))) (drop 4 (drop 4 (entropy w))) (procs w) (clock w)
            ((log w ++ [Get (downloader.video s) []]) ++ [Get (downloader.audio s) []]))
    as <-.
  { unfold after_downloads, created, audio_reply, video_reply, audio_temp, video_temp.
    rewrite <- app_assoc. f_equal.
    destruct (opened (hd Unreachable (tl (net w)))), (opened (hd Unreachable (net w)));
      by rewrite ?union_empty_l_L. }
  fold (video_reply w) (audio_reply w) (video_temp dir w) (audio_temp dir w).
  unfold merged_output.
  destruct (completes (video_reply w)), (completes (audio_reply w)); reflexivity.
Qed.

Lemma placeholder_select vid q :
  ∃ t s, downloader.select_stream (downloader.placeholder_streams vid) q = Some (t, s).
Proof.
  rewrite select_stream_at. pose proof (quality_index_lt q) as Hi.
  destruct (downloader.quality_index q) as [|[|[|[|i]]]]; try lia;
    unfold select_at; cbn -[lookup]; rewrite ?placeholder_lookup; cbn; eauto.
Qed.

Lemma download_single_video_run `{Runtime} dir vid title q w0 S w :
  downloader._get_video_streams vid w0 = (Ok (Some S), w) →
  fs w = fs w0
  ∧ ∃ t s, downloader.select_stream S q = Some (t, s)
      ∧ downloader._download_single_video dir vid title q w0 =
          downloader.download_streams dir (Some S) title q w.
Proof.
  intros Hs. split.
  - rewrite get_video_streams_run in Hs. injection Hs as _ <-. reflexivity.
  - assert (S = downloader.placeholder_streams vid) as ->.
    { rewrite get_video_streams_run in Hs. injection Hs as Hs _.
      destruct (usable _); [|done]. cbn -[downloader.placeholder_streams] in Hs.
      destruct (Text.search_videoInfo _); [|done]. cbn -[downloader.placeholder_streams] in Hs.
      destruct (json_loads _); [|done]. cbn -[downloader.placeholder_streams] in Hs. congruence. }
    destruct (placeholder_select vid q) as (t & s & Hsel). exists t, s. split; [done|].
    unfold downloader._download_single_video, bind. by rewrite Hs.
Qed.
Lemma os_rename_run src dst w :
  has_nul src = false → has_nul dst = false →
  String.length (basename dst) ≤ NAME_MAX →
  src ∈ fs w →
  os_rename src dst w =
    (Ok tt, mkWorld ({[dst]} ∪ fs w ∖ {[src]}) (net w) (entropy w) (procs w) (clock w) (log w)).
Proof.
  intros Hs Hd Hlen Hin. unfold os_rename. rewrite Hs, Hd. cbn [orb].
  unfold bind, get_fs, set_fs.
  rewrite bool_decide_eq_true_2 by exact Hin.
  destruct (Nat.ltb_spec NAME_MAX (String.length (basename dst))); [lia|reflexivity].
Qed.

Lemma merge_unavailable_run dir st vp ap out w :
  tool_unavailable (hd NoSuchProgram (procs w)) →
  vp ∈ fs w → ap ∈ fs w → vp ≠ ap →
  has_nul vp = false → has_nul ap = false →
  has_nul (Text.path_join dir (st +:+ "_video.mp4")) = false →
  has_nul (Text.path_join dir (st +:+ "_audio.m4a")) = false →
  String.length (basename (Text.path_join dir (st +:+ "_video.mp4"))) ≤ NAME_MAX →
  String.length (basename (Text.path_join dir (st +:+ "_audio.m4a"))) ≤ NAME_MAX →
  downloader.merge dir st vp ap out w =
    (Ok true,
     mkWorld
       ({[Text.path_join dir (st +:+ "_audio.m4a")]}
        ∪ ({[Text.path_join dir (st +:+ "_video.mp4")]} ∪ fs w ∖ {[vp]}) ∖ {[ap]})
       (net w) (entropy w) (tl (procs w)) (clock w)
       (log w ++ [Run ["ffmpeg"; "-version"]])).
Proof.
  intros Hp Hv Ha Hne Nvp Nap Nvo Nao Lvo Lao. unfold downloader.merge.
  set (probed := mkWorld (fs w) (net w) (entropy w) (tl (procs w)) (clock w)
                   (log w ++ [Run ["ffmpeg"; "-version"]])).
  assert (∃ e, subprocess_run ["ffmpeg"; "-version"] w = (Raise e, probed)
               ∧ downloader.unavailable e = true) as (e & Hrun & He).
  { unfold subprocess_run, bind, emit, next_proc, raise. cbn.
    destruct Hp as [-> | ->]; eexists; split; reflexivity. }
  unfold try_except at 1. unfold bind at 1. unfold try_except at 1.
  unfold bind at 1. rewrite Hrun, He.
  unfold bind at 1.
  rewrite (os_rename_run vp _ probed Nvp Nvo Lvo) by exact Hv.
  unfold bind at 1. rewrite (os_rename_run ap _ _ Nap Nao Lao).
  - reflexivity.
  - cbn. set_solver.
Qed.

Lemma temp_path_prefix dir ty tok :
  downloader.temp_path dir ty tok =
    dir_prefix dir +:+ "temp_" +:+ ty +:+ "_" +:+ Text.hex tok.
Proof. unfold downloader.temp_path. by rewrite path_join_relative. Qed.

Lemma output_prefix dir title suffix :
  leading_slash suffix = false →
  Text.path_join dir (Text.sanitize title +:+ suffix) =
    dir_prefix dir +:+ Text.sanitize title +:+ suffix.
Proof.
  intros Hs. rewrite path_join_relative; [reflexivity|].
  by apply sanitize_no_leading_slash.
Qed.

(** No output of an acquisition has the name of a temporary file. *)
Lemma output_is_no_temp_file dir title x c1 c2 c3 ty tok :
  length tok = 4 →
  leading_slash (x +:+ String "." (String c1 (String c2 (String c3 EmptyString)))) = false →
  Text.path_join dir
    (Text.sanitize title +:+ x +:+ String "." (String c1 (String c2 (String c3 EmptyString))))
  ≠ downloader.temp_path dir ty tok.
Proof.
  intros Hlen Hs. rewrite temp_path_prefix, output_prefix by exact Hs.
  intros Heq%(inj (String.app _)). rewrite <- append_assoc in Heq.
  by apply dotted_name_is_no_temp_name in Heq.
Qed.

Lemma outputs_and_temp_files dir title w :
  video_temp dir w ≠ audio_temp dir w
  ∧ video_output dir title ≠ video_temp dir w
  ∧ video_output dir title ≠ audio_temp dir w
  ∧ audio_output dir title ≠ video_temp dir w
  ∧ audio_output dir title ≠ audio_temp dir w
  ∧ merged_output dir title ≠ video_temp dir w
  ∧ merged_output dir title ≠ audio_temp dir w
  ∧ merged_output dir title ≠ video_output dir title
  ∧ merged_output dir title ≠ audio_output dir title.
Proof.
  unfold video_temp, audio_temp, video_output, audio_output, merged_output.
  pose proof (next_token_length (entropy w)) as L1.
  pose proof (next_token_length (drop 4 (entropy w))) as L2.
  repeat split.
  - rewrite !temp_path_prefix. intros Heq%(inj (String.app _)).
    revert Heq. generalize (Text.hex (next_token (entropy w))).
    generalize (Text.hex (next_token (drop 4 (entropy w)))). intros h1 h2 Heq.
    vm_compute in Heq. discriminate Heq.
  - by apply (output_is_no_temp_file dir title "_video" "m" "p" "4").
  - by apply (output_is_no_temp_file dir title "_video" "m" "p" "4").
  - by apply (output_is_no_temp_file dir title "_audio" "m" "4" "a").
  - by apply (output_is_no_temp_file dir title "_audio" "m" "4" "a").
  - by apply (output_is_no_temp_file dir title EmptyString "m" "p" "4").
  - by apply (output_is_no_temp_file dir title EmptyString "m" "p" "4").
  - rewrite !output_prefix by reflexivity.
    intros Heq%(inj (String.app _))%(inj (String.app _)). discriminate Heq.
  - rewrite !output_prefix by reflexivity.
    intros Heq%(inj (String.app _))%(inj (String.app _)). discriminate Heq.
Qed.
(** ** The names that the file system takes *)

Lemma occurs_app c a b : occurs c (a +:+ b) = occurs c a || occurs c b.
Proof.
  induction a as [|d a IH]; [by rewrite append_nil_l|].
  rewrite append_cons. cbn. rewrite IH. by rewrite orb_assoc.
Qed.

Lemma forbidden_not_in_sanitized c title :
  Text.forbidden c = true → c ≠ "_"%char → occurs c (Text.sanitize title) = false.
Proof.
  intros Hc Hu. induction title as [|d title IH]; [reflexivity|].
  cbn. rewrite IH, orb_false_r.
  destruct (Text.forbidden d) eqn:Hd.
  - by apply Ascii.eqb_neq.
  - apply Ascii.eqb_neq. intros ->. congruence.
Qed.

Lemma sanitize_length title : String.length (Text.sanitize title) = String.length title.
Proof. induction title as [|c title IH]; [reflexivity|]. cbn. by rewrite IH. Qed.

Lemma has_nul_app a b : has_nul (a +:+ b) = has_nul a || has_nul b.
Proof.
  induction a as [|c a IH]; [by rewrite append_nil_l|].
  rewrite append_cons. cbn. rewrite IH. by rewrite orb_assoc.
Qed.

Lemma has_nul_sanitize title : has_nul (Text.sanitize title) = has_nul title.
Proof.
  induction title as [|c title IH]; [reflexivity|]. cbn. rewrite IH. f_equal.
  destruct (Text.forbidden c) eqn:Hc; [|reflexivity].
  destruct (Ascii.eqb_spec c "000") as [->|_]; [discriminate Hc|reflexivity].
Qed.

Lemma has_nul_hex tok : has_nul (Text.hex tok) = false.
Proof.
  assert (∀ n, Ascii.eqb (Text.hex_digit n) "000" = false) as Hd.
  { intros n. pose proof (hex_digit_is_hex n) as Hn.
    destruct (Ascii.eqb_spec (Text.hex_digit n) "000") as [Heq|_]; [|reflexivity].
    rewrite Heq in Hn. discriminate Hn. }
  induction tok as [|b tok IH]; [reflexivity|]. cbn. by rewrite !Hd, IH.
Qed.

Lemma has_nul_dir_prefix dir : has_nul (dir_prefix dir) = has_nul dir.
Proof.
  unfold dir_prefix. destruct dir as [|c dir]; [reflexivity|].
  destruct (Text.ends_with_slash _); [reflexivity|].
  rewrite has_nul_app. cbn [has_nul]. by rewrite !orb_false_r.
Qed.

Lemma after_last_slash_none name :
  occurs "/" name = false → after_last_slash name = None.
Proof.
  induction name as [|c name IH]; [reflexivity|]. cbn [occurs after_last_slash].
  intros [Hc Hn]%orb_false_elim. rewrite (IH Hn).
  rewrite Ascii.eqb_sym. by rewrite Hc.
Qed.

Lemma after_last_slash_app p name :
  occurs "/" name = false →
  after_last_slash (p +:+ name) = (λ t, t +:+ name) <$> after_last_slash p.
Proof.
  intros Hn. induction p as [|c p IH].
  - rewrite append_nil_l. by rewrite after_last_slash_none.
  - rewrite append_cons. cbn [after_last_slash]. rewrite IH.
    destruct (after_last_slash p) as [t|]; [reflexivity|]. cbn [fmap option_fmap option_map].
    by destruct (Ascii.eqb c "/").
Qed.

Lemma rev_app_head s acc acc' :
  s ≠ EmptyString →
  match String.rev_app s acc with String "/" _ => true | _ => false end
  = match String.rev_app s acc' with String "/" _ => true | _ => false end.
Proof.
  revert acc acc'. induction s as [|x s IH]; intros acc acc' Hne; [done|].
  cbn [String.rev_app]. destruct s as [|y s]; [reflexivity|]. by apply IH.
Qed.

Lemma after_last_slash_of_dir p :
  Text.ends_with_slash p = true → after_last_slash p = Some EmptyString.
Proof.
  induction p as [|c p IH]; [discriminate|].
  destruct p as [|d p].
  - unfold Text.ends_with_slash. cbn.
    destruct (Ascii.eqb_spec c "/") as [->|Hne]; [reflexivity|].
    destruct c as [[] [] [] [] [] [] [] []]; try discriminate. by destruct Hne.
  - assert (Text.ends_with_slash (String c (String d p))
            = Text.ends_with_slash (String d p)) as ->.
    { exact (rev_app_head (String d p) (String c EmptyString) EmptyString
               ltac:(discriminate)). }
    intros Hp. cbn [after_last_slash] in *. by rewrite IH.
Qed.

Lemma after_last_slash_snoc p : after_last_slash (p +:+ "/") = Some EmptyString.
Proof.
  induction p as [|c p IH]; [reflexivity|].
  rewrite append_cons. cbn [after_last_slash]. by rewrite IH.
Qed.

(** The name of a file directly inside the directory. *)
Lemma basename_in_dir dir name :
  occurs "/" name = false → basename (dir_prefix dir +:+ name) = name.
Proof.
  intros Hn. unfold basename. rewrite after_last_slash_app by exact Hn.
  unfold dir_prefix. destruct dir as [|c dir]; [reflexivity|].
  destruct (Text.ends_with_slash (String c dir)) eqn:He.
  - by rewrite after_last_slash_of_dir.
  - by rewrite after_last_slash_snoc.
Qed.

(** The outputs of an acquisition are names that [os.rename] takes, when the
    title is short enough and neither it nor the directory holds a NUL. *)
Lemma output_name_accepted dir title suffix :
  leading_slash suffix = false → occurs "/" suffix = false → has_nul suffix = false →
  has_nul dir = false → has_nul title = false →
  String.length title + String.length suffix ≤ NAME_MAX →
  has_nul (Text.path_join dir (Text.sanitize title +:+ suffix)) = false
  ∧ String.length (basename (Text.path_join dir (Text.sanitize title +:+ suffix)))
    ≤ NAME_MAX.
Proof.
  intros Hl Hs Hn Hd Ht Hlen. rewrite output_prefix by exact Hl. split.
  - by rewrite !has_nul_app, has_nul_dir_prefix, has_nul_sanitize, Hd, Ht, Hn.
  - rewrite basename_in_dir.
    + by rewrite length_append, sanitize_length.
    + rewrite occurs_app, Hs, orb_false_r. by apply forbidden_not_in_sanitized.
Qed.

Lemma temp_path_no_nul dir ty tok :
  has_nul dir = false → has_nul ty = false →
  has_nul (downloader.temp_path dir ty tok) = false.
Proof.
  intros Hd Ht. rewrite temp_path_prefix.
  by rewrite !has_nul_app, has_nul_dir_prefix, has_nul_hex, Hd, Ht.
Qed.


Lemma select_at_none S i :
  i < 4 → select_at S i = None ↔ ∀ k, k < 4 → absent S k.
Proof.
  intros Hi. unfold select_at, absent, tier, downloader.qualities.
  small i; cbn -[lookup]; split_tiers S; cbn -[lookup].
  all: split;
    [ try discriminate; intros _ k Hk; small k; cbn; assumption
    | intros Hk;
      pose proof (Hk 0 ltac:(lia)) as ?H0; pose proof (Hk 1 ltac:(lia)) as ?H1;
      pose proof (Hk 2 ltac:(lia)) as ?H2; pose proof (Hk 3 ltac:(lia)) as ?H3;
      cbn in *; congruence ].
Qed.

(** C2. With [i] the index of the requested label in 1080p, 720p, 480p,
    360p (1 when the label is none of the four), the tier selected is the
    first one of the indices i, i+1, ..., 3 that the stream set holds, and
    failing that the first one of i-1, ..., 0; the two downloads are then
    requested at the locations of that entry.  Nothing is selected exactly
    when the set holds none of the four tiers, and then the operation
    returns [False] without any further effect.  Three instances: a set of
    480p and 360p asked for 1080p gives 480p; a set of 1080p asked for 360p
    gives 1080p; the empty set fails. *)
Theorem quality_fallback
    (dir : string) (S : gmap string downloader.Stream) (q title : string) (w : World) :
  let i := downloader.quality_index q in
  ((∀ j, downloader.qualities !! j = Some q → i = j)
   ∧ (q ∉ downloader.qualities → i = 1))
  ∧ (∀ t s, downloader.select_stream S q = Some (t, s) ↔
       ∃ j, j < 4 ∧ tier j = t ∧ S !! t = Some s ∧
         ((i ≤ j ∧ ∀ k, i ≤ k < j → absent S k)
          ∨ (j < i ∧ (∀ k, i ≤ k < 4 → absent S k) ∧ ∀ k, j < k < i → absent S k)))
  ∧ (∀ t s, downloader.select_stream S q = Some (t, s) →
       ∃ rest,
         log (downloader.download_streams dir (Some S) title q w).2
         = log w ++ Get (downloader.video s) [] :: Get (downloader.audio s) [] :: rest)
  ∧ (downloader.select_stream S q = None ↔ ∀ k, k < 4 → absent S k)
  ∧ (downloader.select_stream S q = None →
       downloader.download_streams dir (Some S) title q w = (Ok false, w))
  ∧ (∀ s1 s2,
       downloader.select_stream {[ "480p" := s1; "360p" := s2 ]} "1080p"
       = Some ("480p", s1))
  ∧ (∀ s, downloader.select_stream {[ "1080p" := s ]} "360p" = Some ("1080p", s))
  ∧ downloader.download_streams dir (Some ∅) title q w = (Ok false, w).
Proof.
  cbn zeta. pose proof (quality_index_lt q) as Hi.
  split; [split; [intros j Hj; by apply quality_index_of_tier | apply quality_index_default]|].
  split; [intros t s; rewrite select_stream_at; by apply select_at_some|].
  split.
  { intros t s Hsel. rewrite (download_streams_run _ _ _ _ _ _ _ Hsel).
    destruct (completes (video_reply w) && completes (audio_reply w)).
    - destruct (extends_merge dir (Text.sanitize title) (video_temp dir w)
                  (audio_temp dir w) (merged_output dir title)
                  (after_downloads dir s w)) as [rest Hrest].
      exists rest. rewrite Hrest. cbn. by rewrite <- app_assoc.
    - exists []. reflexivity. }
  split; [rewrite select_stream_at; by apply select_at_none|].
  split.
  { intros Hsel. unfold downloader.download_streams. rewrite Hsel.
    by destruct (bool_decide (S = ∅)). }
  split; [intros s1 s2; unfold downloader.select_stream; cbn -[lookup]; by simplify_map_eq|].
  split; [intros s; unfold downloader.select_stream; cbn -[lookup]; by simplify_map_eq|].
  unfold downloader.download_streams. by rewrite bool_decide_eq_true_2.
Qed.

Lemma completes_opened r : completes r = true → opened r = true.
Proof. destruct r as [|a]; [done|]. cbn. by intros [? _]%andb_prop. Qed.

(** C4, as amended.  When at least one of the two downloads fails,
    [_download_single_video] returns [False], and nothing is removed on this
    path: the files that exist on return are the files that existed before
    together with the temporary file of every download that got as far as
    opening it, whether that download then succeeded or failed. *)
Theorem failed_download_keeps_temp_files `{Runtime}
    (dir vid title q : string) (w0 w : World) (S : gmap string downloader.Stream) :
  downloader._get_video_streams vid w0 = (Ok (Some S), w) →
  completes (video_reply w) && completes (audio_reply w) = false →
  ∃ w', downloader._download_single_video dir vid title q w0 = (Ok false, w')
    ∧ fs w' = (created (audio_reply w) (audio_temp dir w)
               ∪ (created (video_reply w) (video_temp dir w) ∪ fs w0)).
Proof.
  intros Hs Hfail.
  destruct (download_single_video_run dir vid title q w0 S w Hs)
    as (Hfs & t & s & Hsel & ->).
  rewrite (download_streams_run _ _ _ _ _ _ _ Hsel), Hfail.
  eexists. split; [reflexivity|]. cbn. by rewrite Hfs.
Qed.

Lemma renamed_files (F : gset string) (vp ap vo ao out : string) :
  vp ≠ ap → vo ≠ vp → vo ≠ ap → ao ≠ vp → ao ≠ ap →
  out ≠ vp → out ≠ ap → out ≠ vo → out ≠ ao →
  vp ∈ {[ap]} ∪ ({[vp]} ∪ F)
  ∧ ap ∈ {[ap]} ∪ ({[vp]} ∪ F)
  ∧ vo ∈ {[ao]} ∪ ({[vo]} ∪ ({[ap]} ∪ ({[vp]} ∪ F)) ∖ {[vp]}) ∖ {[ap]}
  ∧ ao ∈ {[ao]} ∪ ({[vo]} ∪ ({[ap]} ∪ ({[vp]} ∪ F)) ∖ {[vp]}) ∖ {[ap]}
  ∧ (vp ∉ {[ao]} ∪ ({[vo]} ∪ ({[ap]} ∪ ({[vp]} ∪ F)) ∖ {[vp]}) ∖ {[ap]})
  ∧ (ap ∉ {[ao]} ∪ ({[vo]} ∪ ({[ap]} ∪ ({[vp]} ∪ F)) ∖ {[vp]}) ∖ {[ap]})
  ∧ (out ∈ {[ao]} ∪ ({[vo]} ∪ ({[ap]} ∪ ({[vp]} ∪ F)) ∖ {[vp]}) ∖ {[ap]} → out ∈ F).
Proof. intros. repeat split; set_solver. Qed.

(** C7, as amended.  When both streams were retrieved, the version probe
    ends in [FileNotFoundError] or in a [SubprocessError] (the two that line
    148 catches), and the two output names are names that the file system
    takes (no NUL in the directory or the title, and the sanitized title with
    its ending of ten characters within [NAME_MAX]),
    [_download_single_video] returns [True]; the two temporary files are gone
    and the two outputs named after the sanitized title exist; the merged
    output is not produced (it exists only if it existed before), and the
    only process that was run is the probe. *)
Theorem unavailable_muxer_keeps_both_streams `{Runtime}
    (dir vid title q : string) (w0 w : World) (S : gmap string downloader.Stream) :
  downloader._get_video_streams vid w0 = (Ok (Some S), w) →
  completes (video_reply w) = true →
  completes (audio_reply w) = true →
  tool_unavailable (hd NoSuchProgram (procs w)) →
  has_nul dir = false →
  has_nul title = false →
  String.length title + 10 ≤ NAME_MAX →
  ∃ w', downloader._download_single_video dir vid title q w0 = (Ok true, w')
    ∧ video_output dir title ∈ fs w'
    ∧ audio_output dir title ∈ fs w'
    ∧ (video_temp dir w ∉ fs w')
    ∧ (audio_temp dir w ∉ fs w')
    ∧ (merged_output dir title ∈ fs w' → merged_output dir title ∈ fs w0)
    ∧ ∃ s, log w' = log w ++ [Get (downloader.video s) []; Get (downloader.audio s) [];
                              Run ["ffmpeg"; "-version"]].
Proof.
  intros Hs Hv Ha Hp Hdir Htitle Hlen.
  destruct (download_single_video_run dir vid title q w0 S w Hs)
    as (Hfs & t & s & Hsel & ->).
  rewrite (download_streams_run _ _ _ _ _ _ _ Hsel), Hv, Ha. cbn [andb].
  destruct (outputs_and_temp_files dir title w)
    as (Hva & Hov & Hoa & Hav & Haa & Hmv & Hma & Hmo & Hmb).
  destruct (renamed_files (fs w0) _ _ _ _ _ Hva Hov Hoa Hav Haa Hmv Hma Hmo Hmb)
    as (Hvin & Hain & G1 & G2 & G3 & G4 & G5).
  assert (fs (after_downloads dir s w)
          = {[audio_temp dir w]} ∪ ({[video_temp dir w]} ∪ fs w0)) as Hafter.
  { unfold after_downloads, created. cbn [fs].
    by rewrite (completes_opened _ Hv), (completes_opened _ Ha), Hfs. }
  destruct (output_name_accepted dir title "_video.mp4") as [Nvo Lvo]; try done.
  destruct (output_name_accepted dir title "_audio.m4a") as [Nao Lao]; try done.
  rewrite merge_unavailable_run;
    [|exact Hp|rewrite Hafter; exact Hvin|rewrite Hafter; exact Hain|exact Hva
     |by apply temp_path_no_nul|by apply temp_path_no_nul
     |exact Nvo|exact Nao|exact Lvo|exact Lao].
  rewrite Hafter.
  eexists. split; [reflexivity|]. cbn [fs log after_downloads].
  split; [exact G1|]. split; [exact G2|]. split; [exact G3|]. split; [exact G4|].
  split; [exact G5|].
  exists s. by rewrite <- app_assoc.
Qed.

(** ** The extractor *)

(** The world after one request. *)
Lemma fetch_run {A} url params (k : Reply → M A) w :
  bind (requests_get url params)
    (λ response, bind (raise_for_status response) (λ _, k response)) w =
  let w1 := mkWorld (fs w) (tl (net w)) (entropy w) (procs w) (clock w)
              (log w ++ [Get url params]) in
  match hd Unreachable (net w) with
  | Answer a => if intact a && status_ok a then k a w1 else (Raise RequestException, w1)
  | Unreachable => (Raise RequestException, w1)
  end.
Proof.
  destruct w as [f n en p c l].
  unfold requests_get, raise_for_status, bind, emit, next_response, ret, raise. cbn.
  destruct n as [|[|a] n]; cbn; try reflexivity.
  destruct (intact a); cbn; [|reflexivity]. by destruct (status_ok a).
Qed.

Lemma usable_some r text :
  usable r = Some text →
  ∃ a, r = Answer a ∧ intact a && status_ok a = true ∧ body a = text.
Proof.
  destruct r as [|a]; [done|]. cbn. destruct (intact a && status_ok a) eqn:E; [|done].
  intros [= <-]. by exists a.
Qed.

Lemma usable_none r :
  usable r = None →
  r = Unreachable ∨ ∃ a, r = Answer a ∧ intact a && status_ok a = false.
Proof.
  destruct r as [|a]; [by left|]. cbn. destruct (intact a && status_ok a) eqn:E; [done|].
  intros _. right. by exists a.
Qed.

Lemma get_multi_p_info_run `{Runtime} vid w :
  extractor.get_multi_p_info vid w =
    (Ok (match usable (hd Unreachable (net w)) with
         | Some text =>
             match part_entries (extractor.BeautifulSoup text) with
             | Some lis => models.MultiPartInfo true (extractor.part_of_li <$> lis)
             | None => models.MultiPartInfo false []
             end
         | None => PyList []
         end),
     mkWorld (fs w) (tl (net w)) (entropy w) (procs w) (clock w)
       (log w ++ [Get (extractor.base_url +:+ "/v/ac" +:+ vid) []])).
Proof.
  unfold extractor.get_multi_p_info, try_except. rewrite fetch_run. cbn zeta.
  unfold part_entries.
  destruct (hd Unreachable (net w)) as [|a]; [reflexivity|]. cbn [usable].
  destruct (intact a && status_ok a); [|reflexivity].
  by destruct (bs4.find "div" "part" (extractor.BeautifulSoup (body a))).
Qed.

(** What [get_multi_p_info] returns when its request is answered is a tuple
    of two fields, whose first item is a [bool]. *)
Lemma collect_parts_of_tuple (b : bool) (l : list PyObj) w :
  extractor.collect_parts (models.MultiPartInfo b l) w = (Raise TypeError, w).
Proof. reflexivity. Qed.

(** Whatever the page holds: when the request of [get_video_info] and the
    request of [get_multi_p_info] are both answered, [get_video_info]
    returns [None]. *)
Lemma get_video_info_none `{Runtime} vid w text1 text2 :
  usable (hd Unreachable (net w)) = Some text1 →
  usable (hd Unreachable (tl (net w))) = Some text2 →
  (extractor.get_video_info vid w).1 = Ok PyNone.
Proof.
  intros (a1 & H1 & Hok1 & _)%usable_some H2.
  unfold extractor.get_video_info, try_except. rewrite fetch_run. cbn zeta.
  rewrite H1, Hok1.
  destruct (extractor.uploader_of _) as [uploader_name uploader_uid].
  unfold bind at 1. unfold datetime_now at 1. cbn [fst snd].
  unfold bind at 1. rewrite get_multi_p_info_run. cbn [net tl].
  rewrite H2.
  destruct (part_entries _) as [lis|]; reflexivity.
Qed.

(** With every optional place missing and no answer to the request of
    [get_multi_p_info], the record of defaults is returned. *)
Lemma get_video_info_defaults `{Runtime} vid w text :
  usable (hd Unreachable (net w)) = Some text →
  bare (extractor.BeautifulSoup text) →
  usable (hd Unreachable (tl (net w))) = None →
  (extractor.get_video_info vid w).1 =
    Ok (extractor.VideoMetadata (Vid vid) "Unknown Title" EmptyString
          (models.Uploader (Uid "0") "Unknown") (PyDatetime (clock w)) false []).
Proof.
  intros (a1 & H1 & Hok1 & <-)%usable_some (Ht & Hu & Hd & Hc & Hp) H2.
  unfold extractor.get_video_info, try_except. rewrite fetch_run. cbn zeta.
  rewrite H1, Hok1. unfold extractor.uploader_of. rewrite Ht, Hu, Hd, Hc.
  unfold bind at 1. unfold datetime_now at 1. cbn [fst snd].
  unfold bind at 1. rewrite get_multi_p_info_run. cbn [net tl].
  rewrite H2. reflexivity.
Qed.

(** ** The catalogue *)

Lemma pages_fetched_app a b : pages_fetched (a ++ b) = pages_fetched a ++ pages_fetched b.
Proof. apply omap_app. Qed.

(** One turn of the loop over the further pages: it never raises, and it
    sends exactly one request, for its page. *)
Lemma fetch_page_run `{Runtime} url uploader page video_list w :
  ∃ video_list' w' new,
    extractor.fetch_page url uploader page video_list w = (Ok video_list', w')
    ∧ log w' = log w ++ new
    ∧ pages_fetched new = [page].
Proof.
  unfold extractor.fetch_page. unfold bind at 1, time_ms at 1.
  unfold try_except. rewrite fetch_run. cbn zeta.
  set (w1 := mkWorld _ _ _ _ _ _).
  assert (pages_fetched [Get url (extractor.page_params page (clock w))] = [page]) as Hp
    by reflexivity.
  assert (log w1 = log w ++ [Get url (extractor.page_params page (clock w))]) as Hl
    by reflexivity.
  destruct (hd Unreachable (net w)) as [|a]; [by eauto 10|].
  destruct (intact a && status_ok a); [|by eauto 10].
  unfold bind at 1, lift at 1.
  destruct (json_loads _) as [json_obj|]; [|by eauto 10].
  unfold bind at 1, lift at 1.
  destruct (extractor.get_html json_obj) as [html_content|e]; [|by eauto 10].
  unfold bind at 1, lift at 1.
  destruct (as_str html_content) as [html|e]; [|by eauto 10].
  eexists _, _, [Get url (extractor.page_params page (clock w)); Sleep 500].
  split; [reflexivity|]. split; [|reflexivity].
  cbn [log]. rewrite Hl. by rewrite <- app_assoc.
Qed.

Lemma fetch_pages_run `{Runtime} url uploader pages video_list w :
  ∃ video_list' w' new,
    for_each pages (extractor.fetch_page url uploader) video_list w = (Ok video_list', w')
    ∧ log w' = log w ++ new
    ∧ pages_fetched new = pages.
Proof.
  revert video_list w. induction pages as [|page pages IH]; intros video_list w.
  - exists video_list, w, []. cbn. by rewrite app_nil_r.
  - cbn [for_each]. unfold bind.
    destruct (fetch_page_run url uploader page video_list w) as (l1 & w1 & n1 & -> & Hl1 & Hp1).
    destruct (IH l1 w1) as (l2 & w2 & n2 & -> & Hl2 & Hp2).
    exists l2, w2, (n1 ++ n2). split; [reflexivity|]. split.
    + by rewrite Hl2, Hl1, app_assoc.
    + by rewrite pages_fetched_app, Hp1, Hp2.
Qed.

Lemma total_pages_ceil n : extractor.total_pages n = ceil_div n 20.
Proof.
  unfold extractor.total_pages, ceil_div.
  destruct (Z.ltb_spec 0 (n `mod` 20)); Z.div_mod_to_equations; lia.
Qed.

Lemma ceil_div_bounds n : (20 * (ceil_div n 20 - 1) < n ≤ 20 * ceil_div n 20)%Z.
Proof. unfold ceil_div. Z.div_mod_to_equations. lia. Qed.

(** C6. Once the landing page of the uploader is fetched and its declared
    total [N] is read, [get_up_videos] returns a list, and the pages it
    requested are 1, 2, ..., ceil(N/20), in this order, when exhaustive
    fetching is asked for and N > 20, and page 1 alone otherwise: in
    particular for every N <= 20, whatever the flag.  A further page that
    fails does not end the loop. *)
Theorem catalogue_pages_fetched `{Runtime}
    (uid : string) (fetch_all_pages : bool) (w : World) (text name : string) (N : Z) :
  usable (hd Unreachable (net w)) = Some text →
  extractor.uploader_name_of (extractor.BeautifulSoup text) = Ok name →
  extractor.video_count_of (extractor.BeautifulSoup text) = Ok N →
  ∃ videos w' new,
    extractor.get_up_videos uid fetch_all_pages w = (Ok (PyList videos), w')
    ∧ log w' = log w ++ new
    ∧ pages_fetched new =
        (if fetch_all_pages && (20 <? N)%Z then seqZ 1 (ceil_div N 20) else [1%Z])
    ∧ ((N ≤ 20)%Z → pages_fetched new = [1%Z]).
Proof.
  intros (a & Ha & Hok & <-)%usable_some Hname Hcount.
  unfold extractor.get_up_videos, try_except. rewrite fetch_run. cbn zeta.
  rewrite Ha, Hok, Hname, Hcount. unfold bind at 1, lift at 1. unfold bind at 1, lift at 1.
  set (w1 := mkWorld _ _ _ _ _ _).
  set (url := extractor.base_url +:+ "/u/" +:+ uid).
  assert (log w1 = log w ++ [Get url []]) as Hl by reflexivity.
  destruct (fetch_all_pages && (20 <? N)%Z) eqn:Hflag.
  - apply andb_prop in Hflag as [_ HN%Z.ltb_lt].
    unfold bind at 1.
    destruct (fetch_pages_run url (models.Uploader (Uid uid) name)
                (extractor.range 2 (extractor.total_pages N + 1))
                (extractor._parse_video_page (extractor.BeautifulSoup (body a))
                   (models.Uploader (Uid uid) name)) w1)
      as (l & w2 & new & -> & Hl2 & Hp).
    exists l, w2, (Get url [] :: new). split; [reflexivity|]. split.
    + rewrite Hl2, Hl. by rewrite <- app_assoc.
    + split; [|lia].
      change (pages_fetched (Get url [] :: new)) with (1%Z :: pages_fetched new).
      rewrite Hp. unfold extractor.range. rewrite total_pages_ceil.
      pose proof (ceil_div_bounds N).
      rewrite (seqZ_cons 1) by lia. f_equal. f_equal; lia.
  - eexists _, w1, [Get url []]. split; [reflexivity|]. split; [exact Hl|].
    split; reflexivity.
Qed.

(** ** Where the code departs from its specification *)

(** C1. A page with none of the optional places, fetched twice with status
    200 (once by [get_video_info], once by [get_multi_p_info]):
    [get_video_info] returns [None], not the record of defaults.  The
    [MultiPartInfo] it gets back is a tuple of two fields; it passes the test
    of line 105 and its first item, a [bool], is then indexed by a string. *)
Theorem bare_page_gives_no_metadata :
  bare (@extractor.BeautifulSoup example_runtime bare_markup)
  ∧ (@extractor.get_multi_p_info example_runtime "12345"
       (world [answer bare_markup] [])).1
    = Ok (models.MultiPartInfo false [])
  ∧ Py.truthy (models.MultiPartInfo false []) = true
  ∧ Py.len (models.MultiPartInfo false []) = Ok 2%Z
  ∧ (@extractor.get_video_info example_runtime "12345"
       (world [answer bare_markup; answer bare_markup] [])).1
    = Ok PyNone.
Proof.
  split; [repeat split; vm_compute; reflexivity|].
  repeat split; vm_compute; reflexivity.
Qed.

(** C3. A page whose part list has exactly one entry: the descriptor that
    [get_multi_p_info] returns has [has_multi_part = True] with that one
    part, and [get_video_info] returns [None] instead of a record with
    [has_multi_p = False]. *)
Theorem single_part_page_is_not_normalised :
  (length <$> part_entries (@extractor.BeautifulSoup example_runtime one_part_markup))
  = Some 1
  ∧ (@extractor.get_multi_p_info example_runtime "12345"
       (world [answer one_part_markup] [])).1
    = Ok (models.MultiPartInfo true [models.PartVideoMetadata (Vid "12345_1") "one"])
  ∧ (@extractor.get_video_info example_runtime "12345"
       (world [answer one_part_markup; answer one_part_markup] [])).1
    = Ok PyNone.
Proof. repeat split; vm_compute; reflexivity. Qed.

(** What [get_up_videos] returns is a list; a non-empty list passes the test
    of line 284 and is then indexed by a string. *)
Lemma download_up_videos_raises `{Runtime} dir uid max_videos quality w videos w' :
  extractor.get_up_videos uid true w = (Ok (PyList videos), w') →
  videos ≠ [] →
  downloader.download_up_videos dir uid max_videos quality w = (Raise TypeError, w').
Proof.
  intros Hget Hne. unfold downloader.download_up_videos, downloader.download_up_videos_via.
  unfold bind at 1. rewrite Hget. destruct videos; [done|]. reflexivity.
Qed.

(** C5. An uploader with three videos: [get_up_videos] returns the list of
    the three, [download_up_videos] raises [TypeError], and the only request
    that was sent is the one for the landing page: no video was attempted. *)
Theorem three_videos_none_attempted :
  (∃ v1 v2 v3,
     (@extractor.get_up_videos example_runtime "9876" true
        (world [answer three_videos_markup] [])).1
     = Ok (PyList [v1; v2; v3]))
  ∧ (@downloader.download_up_videos example_runtime "./downloads" "9876" None "720p"
       (world [answer three_videos_markup] [])).1
    = Raise TypeError
  ∧ log (@downloader.download_up_videos example_runtime "./downloads" "9876" None "720p"
           (world [answer three_videos_markup] [])).2
    = [Get "https://www.acfun.cn/u/9876" []].
Proof.
  split; [do 3 eexists; vm_compute; reflexivity|].
  split; vm_compute; reflexivity.
Qed.

(** ** The batch loop *)

Lemma attempts_app a b : attempts (a ++ b) = attempts a ++ attempts b.
Proof. apply omap_app. Qed.

Lemma succeeded_cons outcome v vids :
  succeeded outcome (v :: vids)
  = ((if outcome v then 1 else 0) + succeeded outcome vids)%Z.
Proof.
  unfold succeeded. rewrite filter_cons.
  destruct (outcome v); cbn [Is_true]; case_decide; try done; cbn [length]; lia.
Qed.

Lemma download_listed_loop `{Runtime} outcome quality n vids i acc w :
  ∃ w' new,
    for_each (zip (seqZ i (Z.of_nat (length vids))) (listed_entry <$> vids))
      (downloader.download_listed (stub_download outcome) quality n) acc w
    = (Ok (acc + succeeded outcome vids)%Z, w')
    ∧ log w' = log w ++ new
    ∧ attempts new = vids.
Proof.
  revert i acc w. induction vids as [|v vids IH]; intros i acc w.
  - exists w, []. cbn. rewrite app_nil_r. split; [|done].
    unfold succeeded. cbn. by rewrite Z.add_0_r.
  - cbn [length fmap list_fmap]. rewrite Nat2Z.inj_succ, seqZ_cons by lia.
    rewrite Z.pred_succ. cbn [zip zip_with for_each].
    unfold bind at 1.
    set (w1 := mkWorld (fs w) (net w) (entropy w) (procs w) (clock w)
                 (log w ++ [Run ["download_video"; v]])).
    assert (∃ w2 sl,
              downloader.download_listed (stub_download outcome) quality n
                (i, listed_entry v) acc w
              = (Ok (if outcome v then (acc + 1)%Z else acc), w2)
              ∧ log w2 = log w ++ (Run ["download_video"; v] :: sl)
              ∧ attempts sl = []) as (w2 & sl & -> & Hl2 & Hs).
    { unfold downloader.download_listed, stub_download, listed_entry.
      cbn -[Z.ltb Z.sub].
      destruct (i <? n - 1)%Z.
      - eexists _, [Sleep 1000]. split; [reflexivity|]. split; [|reflexivity].
        cbn. by rewrite <- app_assoc.
      - eexists _, []. split; [reflexivity|]. split; reflexivity. }
    destruct (IH (Z.succ i) (if outcome v then (acc + 1)%Z else acc) w2)
      as (w' & new & -> & Hl & Ha).
    exists w', (Run ["download_video"; v] :: sl ++ new). split; [|split].
    + f_equal. f_equal. rewrite succeeded_cons. destruct (outcome v); lia.
    + rewrite Hl, Hl2. by rewrite <- app_assoc.
    + change (attempts (Run ["download_video"; v] :: sl ++ new))
        with (v :: attempts (sl ++ new)).
      by rewrite attempts_app, Hs, Ha.
Qed.

(** What the loop of [download_up_videos] does once it is given the listing
    it expects: every video of the capped sequence is attempted, in order,
    whatever the outcomes, and the successes are counted. *)
Lemma download_up_videos_via_stubs `{Runtime} outcome vids uid max_videos quality w :
  ∃ w' new,
    downloader.download_up_videos_via (stub_listing vids) (stub_download outcome)
      uid max_videos quality w
    = (Ok (succeeded outcome (capped vids max_videos)), w')
    ∧ log w' = log w ++ new
    ∧ attempts new = capped vids max_videos.
Proof.
  unfold downloader.download_up_videos_via, stub_listing.
  assert (∀ (l : list string) (items : list PyObj),
            items = listed_entry <$> l →
            ∃ w' new,
              bind (lift (Py.getitem
                      (PyDict [("user", PyStr "up"); ("videos", PyList (listed_entry <$> vids))])
                      "user"))
                (λ _, bind (lift (Py.len (PyList items)))
                   (λ n, bind (lift (Py.iter (PyList items)))
                      (λ items, for_each (Py.enumerate items)
                         (downloader.download_listed (stub_download outcome) quality n) 0%Z))) w
              = (Ok (succeeded outcome l), w')
              ∧ log w' = log w ++ new ∧ attempts new = l) as Hloop.
  { intros l items ->. unfold bind, lift. unfold Py.enumerate.
    cbn -[for_each zip seqZ downloader.download_listed length fmap].
    destruct (download_listed_loop outcome quality (Z.of_nat (length l)) l 0 0 w)
      as (w' & new & Hrun & Hl & Ha).
    exists w', new. rewrite length_fmap. split; [exact Hrun|done]. }
  unfold bind at 1, ret at 1. cbn [Py.truthy length Nat.eqb negb].
  unfold bind at 1, lift at 1. cbn [Py.getitem Py.assoc].
  change (Py.assoc "videos" _) with (Some (PyList (listed_entry <$> vids))).
  cbn iota beta. unfold capped.
  destruct max_videos as [n|].
  - destruct (n =? 0)%Z.
    + unfold bind at 1, ret at 1. by apply Hloop.
    + unfold bind at 1, lift at 1. cbn [Py.slice]. apply Hloop.
      unfold Py.slice_to. rewrite length_fmap. destruct (0 <=? n)%Z; by rewrite fmap_take.
  - unfold bind at 1, ret at 1. by apply Hloop.
Qed.

(** Three videos whose downloads end with success, failure, success: all
    three are attempted, in order, and 2 is returned. *)
Example batch_of_three :
  (@downloader.download_up_videos_via example_runtime (stub_listing ["1"; "2"; "3"])
     (stub_download (λ v, negb (String.eqb v "2"))) "9876" None "720p" (world [] [])).1
  = Ok 2%Z
  ∧ attempts
      (log (@downloader.download_up_videos_via example_runtime (stub_listing ["1"; "2"; "3"])
              (stub_download (λ v, negb (String.eqb v "2"))) "9876" None "720p"
              (world [] [])).2)
    = ["1"; "2"; "3"].
Proof. split; vm_compute; reflexivity. Qed.

(** ** Instances *)

(** C4 as stated fails.  The streams are resolved, the video download
    succeeds and the audio download finds no server: [False] is returned and
    the temporary file of the video, which did not exist before, is still
    there. *)
Lemma failed_audio_leaves_video_file :
  completes (audio_reply (world [answer "v"; Unreachable] [])) = false
  ∧ (@downloader._download_single_video example_runtime "./downloads" "12345" "clip" "720p"
       (world [answer blob_markup; answer "v"; Unreachable] [])).1
    = Ok false
  ∧ "./downloads/temp_video_00010203"
    ∈ fs (@downloader._download_single_video example_runtime "./downloads" "12345"
            "clip" "720p" (world [answer blob_markup; answer "v"; Unreachable] [])).2
  ∧ "./downloads/temp_video_00010203"
    ∉ fs (world [answer blob_markup; answer "v"; Unreachable] []).
Proof.
  split; [vm_compute; reflexivity|]. split; [vm_compute; reflexivity|]. split.
  - match goal with |- ?P => apply (bool_decide_eq_true_1 P) end.
    vm_compute. reflexivity.
  - match goal with |- ¬ ?P => apply (bool_decide_eq_false_1 P) end.
    vm_compute. reflexivity.
Qed.

(** An instance of C4 as amended: the audio download finds no server, and on
    return the output directory, empty before, holds the temporary file of
    the video. *)
Lemma failed_download_keeps_temp_files_witness :
  ∃ w',
    @downloader._download_single_video example_runtime "./downloads" "12345" "clip" "720p"
      (world [answer blob_markup; answer "v"; Unreachable] []) = (Ok false, w')
    ∧ fs w' = ({[ "./downloads/temp_video_00010203" ]} : gset string).
Proof.
  destruct (@failed_download_keeps_temp_files example_runtime
              "./downloads" "12345" "clip" "720p"
              (world [answer blob_markup; answer "v"; Unreachable] [])
              (mkWorld ∅ [answer "v"; Unreachable]
                 [x00; x01; x02; x03; x04; x05; x06; x07] [] 1000
                 [Get "https://www.acfun.cn/v/ac12345" []])
              (downloader.placeholder_streams "12345"))
    as (w' & Hrun & Hfs).
  - vm_compute. reflexivity.
  - vm_compute. reflexivity.
  - exists w'. split; [exact Hrun|]. rewrite Hfs.
    change (created _ _) with (∅ : gset string) at 1.
    change (created _ _) with ({[ "./downloads/temp_video_00010203" ]} : gset string).
    change (fs (world _ _)) with (∅ : gset string).
    by rewrite union_empty_l_L, union_empty_r_L.
Defined.

(** An instance of C7: no muxing tool is installed; the title [a/b] gives
    the two outputs [a_b_video.mp4] and [a_b_audio.m4a]. *)
Lemma unavailable_muxer_witness :
  ∃ w',
    @downloader._download_single_video example_runtime "./downloads" "12345" "a/b" "720p"
      (world [answer blob_markup; answer "v"; answer "a"] [NoSuchProgram]) = (Ok true, w')
    ∧ "./downloads/a_b_video.mp4" ∈ fs w'
    ∧ "./downloads/a_b_audio.m4a" ∈ fs w'.
Proof.
  destruct (@unavailable_muxer_keeps_both_streams example_runtime
              "./downloads" "12345" "a/b" "720p"
              (world [answer blob_markup; answer "v"; answer "a"] [NoSuchProgram])
              (mkWorld ∅ [answer "v"; answer "a"]
                 [x00; x01; x02; x03; x04; x05; x06; x07] [NoSuchProgram] 1000
                 [Get "https://www.acfun.cn/v/ac12345" []])
              (downloader.placeholder_streams "12345"))
    as (w' & Hrun & Hv & Ha & _).
  - vm_compute. reflexivity.
  - vm_compute. reflexivity.
  - vm_compute. reflexivity.
  - left. reflexivity.
  - reflexivity.
  - reflexivity.
  - unfold NAME_MAX. cbn. lia.
  - exists w'. split; [exact Hrun|]. split; [exact Hv|exact Ha].
Defined.

(** C7 as stated fails, in two ways.  Both streams are retrieved and the
    version probe fails because the tool may not be executed: [False] is
    returned, no output is made and the temporary files stay.  And with no
    tool installed and a title of 246 characters the renaming fails: [False]
    is returned and the temporary files stay. *)
Lemma failing_probe_without_outputs :
  (subprocess_run ["ffmpeg"; "-version"] (world [] [NotExecutable])).1
  = Raise PermissionError
  ∧ (@downloader._download_single_video example_runtime "./downloads" "12345" "clip" "720p"
       (world [answer blob_markup; answer "v"; answer "a"] [NotExecutable])).1
    = Ok false
  ∧ fs (@downloader._download_single_video example_runtime "./downloads" "12345" "clip"
          "720p" (world [answer blob_markup; answer "v"; answer "a"] [NotExecutable])).2
    = {[ "./downloads/temp_audio_04050607" ]}
      ∪ ({[ "./downloads/temp_video_00010203" ]} ∪ ∅)
  ∧ String.length (Text.sanitize long_title +:+ "_video.mp4") = 256
  ∧ (@downloader._download_single_video example_runtime "./downloads" "12345" long_title
       "720p" (world [answer blob_markup; answer "v"; answer "a"] [NoSuchProgram])).1
    = Ok false
  ∧ fs (@downloader._download_single_video example_runtime "./downloads" "12345" long_title
          "720p" (world [answer blob_markup; answer "v"; answer "a"] [NoSuchProgram])).2
    = {[ "./downloads/temp_audio_04050607" ]}
      ∪ ({[ "./downloads/temp_video_00010203" ]} ∪ ∅).
Proof.
  split; [vm_compute; reflexivity|]. split; [vm_compute; reflexivity|].
  split; [reflexivity|]. split; [vm_compute; reflexivity|].
  split; [vm_compute; reflexivity|]. reflexivity.
Qed.

(** An instance of C6: a declared total of 45 with exhaustive fetching gives
    the requests for the pages 1, 2 and 3, also when the further pages find
    no server. *)
Lemma catalogue_of_45_fetches_three_pages :
  ∃ videos w' new,
    @extractor.get_up_videos example_runtime "9876" true
      (world [answer declared_45_markup] []) = (Ok (PyList videos), w')
    ∧ log w' = new
    ∧ pages_fetched new = [1; 2; 3]%Z.
Proof.
  destruct (@catalogue_pages_fetched example_runtime "9876" true
              (world [answer declared_45_markup] []) declared_45_markup "Unknown" 45)
    as (videos & w' & new & Hrun & Hlog & Hpages & _).
  - vm_compute. reflexivity.
  - vm_compute. reflexivity.
  - vm_compute. reflexivity.
  - exists videos, w', new. split; [exact Hrun|]. split; [exact Hlog|exact Hpages].
Defined.

(** ** File names *)

(** X1. The sanitized title has the length of the title; each of the nine
    characters of the class is replaced by an underscore and every other
    character stays where it is; the result holds none of the nine
    characters, so that sanitizing twice changes nothing more. *)
Theorem sanitize_replaces_exactly_the_forbidden (title : string) :
  String.length (Text.sanitize title) = String.length title
  ∧ (∀ i c, String.get i title = Some c →
       String.get i (Text.sanitize title)
       = Some (if Text.forbidden c then "_"%char else c))
  ∧ (∀ i c, String.get i (Text.sanitize title) = Some c → Text.forbidden c = false)
  ∧ Text.sanitize (Text.sanitize title) = Text.sanitize title
  ∧ Text.sanitize "a/b:c*d" = "a_b_c_d".
Proof.
  assert (∀ c, Text.forbidden (if Text.forbidden c then "_"%char else c) = false) as Hf.
  { intros c. destruct (Text.forbidden c) eqn:E; [reflexivity|exact E]. }
  split; [|split; [|split; [|split]]].
  - induction title as [|c title IH]; [reflexivity|]. cbn. by rewrite IH.
  - induction title as [|c title IH]; intros i d Hget; [by destruct i|].
    destruct i as [|i]; cbn in *.
    + by injection Hget as ->.
    + by apply IH.
  - induction title as [|c title IH]; intros i d Hget; [by destruct i|].
    destruct i as [|i]; cbn in *.
    + injection Hget as <-. apply Hf.
    + by apply (IH i).
  - induction title as [|c title IH]; [reflexivity|]. cbn. rewrite IH. f_equal.
    by rewrite Hf.
  - reflexivity.
Qed.

(** ** More on one streamed download *)

(** X2. [_download_stream] never raises.  It takes one reply and four random
    bytes, and sends one request.  It returns the path of its temporary file
    exactly when the reply has a 2xx status, a Content-Length that [int]
    accepts (or none) and a body that arrives whole; the file exists
    afterwards as soon as it was opened, also when the body then breaks off,
    and nothing else is created or removed. *)
Theorem download_stream_outcomes (dir url ty : string) (w : World) :
  let reply := hd Unreachable (net w) in
  let temp := downloader.temp_path dir ty (next_token (entropy w)) in
  ∃ r w',
    downloader._download_stream dir url ty w = (Ok r, w')
    ∧ r = (if completes reply then Some temp else None)
    ∧ fs w' = created reply temp ∪ fs w
    ∧ (opened reply = true → completes reply = false → r = None ∧ temp ∈ fs w')
    ∧ net w' = tl (net w)
    ∧ entropy w' = drop 4 (entropy w)
    ∧ procs w' = procs w
    ∧ log w' = log w ++ [Get url []].
Proof.
  cbn zeta. rewrite download_stream_run. cbn zeta.
  eexists _, _. split; [reflexivity|]. cbn [fs net entropy procs log].
  split; [reflexivity|]. unfold created. split.
  - destruct (opened _); [reflexivity|]. by rewrite union_empty_l_L.
  - split; [|done]. intros -> ->. split; [reflexivity|]. set_solver.
Qed.

Lemma unhex_hex_digit n : (n < 16)%N → unhex_digit (Text.hex_digit n) = n.
Proof.
  intros Hn. destruct n as [|p]; [reflexivity|].
  do 4 (destruct p as [p|p|]; try reflexivity); lia.
Qed.

Lemma hex_inj bs bs' : Text.hex bs = Text.hex bs' → bs = bs'.
Proof.
  revert bs'. induction bs as [|b bs IH]; intros [|b' bs'] Heq; try done.
  cbn in Heq. injection Heq as H1 H2 H3. f_equal; [|by apply IH].
  pose proof (Byte.to_N_bounded b) as Hb. pose proof (Byte.to_N_bounded b') as Hb'.
  apply (f_equal unhex_digit) in H1, H2.
  rewrite !unhex_hex_digit in H1, H2
    by (try apply N.mod_upper_bound; try apply N.Div0.div_lt_upper_bound; lia).
  assert (Byte.to_N b = Byte.to_N b') as Hn.
  { rewrite (N.div_mod (Byte.to_N b) 16), (N.div_mod (Byte.to_N b') 16) by lia.
    by rewrite H1, H2. }
  apply (f_equal Byte.of_N) in Hn. rewrite !Byte.of_to_N in Hn. by injection Hn.
Qed.

Lemma hex_shape bs :
  String.length (Text.hex bs) = 2 * length bs ∧ all_hex (Text.hex bs) = true.
Proof.
  induction bs as [|b bs [IH1 IH2]]; [done|]. cbn [Text.hex]. split.
  - cbn. rewrite IH1. lia.
  - cbn. by rewrite !hex_digit_is_hex, IH2.
Qed.

(** X3. The temporary file of a download is named, inside the output
    directory, [temp_], the kind of stream, an underscore and the random
    bytes in lower-case hexadecimal, two digits for a byte.  The name
    determines the bytes: two downloads of one kind write to the same file
    only if they drew the same random bytes, and the files of a video and of
    an audio download always differ. *)
Theorem temp_file_names (dir ty : string) (tok tok' : list byte) :
  (∃ h, downloader.temp_path dir ty tok = dir_prefix dir +:+ "temp_" +:+ ty +:+ "_" +:+ h
        ∧ String.length h = 2 * length tok ∧ all_hex h = true)
  ∧ (downloader.temp_path dir ty tok = downloader.temp_path dir ty tok' → tok = tok')
  ∧ downloader.temp_path dir "video" tok ≠ downloader.temp_path dir "audio" tok'.
Proof.
  split; [|split].
  - exists (Text.hex tok). split; [apply temp_path_prefix|apply hex_shape].
  - rewrite !temp_path_prefix.
    intros Heq%(inj (String.app _))%(inj (String.app _))%(inj (String.app _))%(inj (String.app _)).
    by apply hex_inj.
  - rewrite !temp_path_prefix. intros Heq%(inj (String.app _)).
    revert Heq. generalize (Text.hex tok) (Text.hex tok'). intros h h' Heq.
    vm_compute in Heq. discriminate Heq.
Qed.

(** ** The merge *)

Lemma os_remove_run path w :
  path ∈ fs w →
  os_remove path w =
    (Ok tt, mkWorld (fs w ∖ {[path]}) (net w) (entropy w) (procs w) (clock w) (log w)).
Proof.
  intros Hin. unfold os_remove, bind, get_fs, set_fs.
  by rewrite bool_decide_eq_true_2.
Qed.

Lemma subprocess_run_ok argv w :
  hd NoSuchProgram (procs w) = Exit0 →
  subprocess_run argv w =
    (Ok tt, mkWorld (fs w) (net w) (entropy w) (tl (procs w)) (clock w) (log w ++ [Run argv])).
Proof.
  intros Hp. unfold subprocess_run, bind, emit, next_proc, ret. cbn. by rewrite Hp.
Qed.

Lemma subprocess_run_fails argv w :
  hd NoSuchProgram (procs w) ≠ Exit0 →
  ∃ e, subprocess_run argv w =
    (Raise e, mkWorld (fs w) (net w) (entropy w) (tl (procs w)) (clock w) (log w ++ [Run argv])).
Proof.
  intros Hp. unfold subprocess_run, bind, emit, next_proc, ret, raise. cbn.
  destruct (hd NoSuchProgram (procs w)); [done|eauto..].
Qed.

Lemma merge_done_run dir st vp ap out w :
  hd NoSuchProgram (procs w) = Exit0 →
  hd NoSuchProgram (tl (procs w)) = Exit0 →
  vp ∈ fs w → ap ∈ fs w → vp ≠ ap →
  downloader.merge dir st vp ap out w =
    (Ok true,
     mkWorld ((({[out]} ∪ fs w) ∖ {[vp]}) ∖ {[ap]}) (net w) (entropy w) (tl (tl (procs w)))
       (clock w)
       (log w ++ [Run ["ffmpeg"; "-version"]; Run (downloader.merge_command vp ap out)])).
Proof.
  intros Hp1 Hp2 Hv Ha Hne. unfold downloader.merge.
  unfold try_except at 1. unfold bind at 1. unfold try_except at 1. unfold bind at 1.
  rewrite subprocess_run_ok by exact Hp1. cbn [ret].
  unfold bind at 1. rewrite subprocess_run_ok by exact Hp2.
  unfold bind at 1. unfold open_wb, set_fs. cbn [fs net entropy procs clock log].
  unfold bind at 1. rewrite os_remove_run by (cbn [fs]; set_solver). cbn [fs net entropy procs clock log].
  unfold bind at 1. rewrite os_remove_run by (cbn [fs]; set_solver). cbn [fs net entropy procs clock log].
  unfold ret. by rewrite <- app_assoc.
Qed.

Lemma merge_failed_run dir st vp ap out w :
  merge_fails (procs w) →
  ∃ ps new,
    downloader.merge dir st vp ap out w =
      (Ok false, mkWorld (fs w) (net w) (entropy w) ps (clock w) (log w ++ new)).
Proof.
  intros [Hp | [Hp1 Hp2]]; unfold downloader.merge.
  - unfold try_except at 1. unfold bind at 1. unfold try_except at 1. unfold bind at 1.
    unfold subprocess_run, bind, emit, next_proc, ret, raise. cbn. rewrite Hp. cbn.
    by eexists _, [_].
  - unfold try_except at 1. unfold bind at 1. unfold try_except at 1. unfold bind at 1.
    rewrite subprocess_run_ok by exact Hp1. cbn [ret].
    unfold bind at 1.
    destruct (subprocess_run_fails (downloader.merge_command vp ap out)
                (mkWorld (fs w) (net w) (entropy w) (tl (procs w)) (clock w)
                   (log w ++ [Run ["ffmpeg"; "-version"]]))) as [e ->]; [exact Hp2|].
    cbn. eexists _, [_; _]. by rewrite <- app_assoc.
Qed.

Lemma removed_temp_files (F : gset string) (vp ap vo ao out : string) :
  vp ≠ ap → out ≠ vp → out ≠ ap → out ≠ vo → out ≠ ao →
  out ∈ (({[out]} ∪ ({[ap]} ∪ ({[vp]} ∪ F))) ∖ {[vp]}) ∖ {[ap]}
  ∧ (vp ∉ (({[out]} ∪ ({[ap]} ∪ ({[vp]} ∪ F))) ∖ {[vp]}) ∖ {[ap]})
  ∧ (ap ∉ (({[out]} ∪ ({[ap]} ∪ ({[vp]} ∪ F))) ∖ {[vp]}) ∖ {[ap]})
  ∧ (vo ∈ (({[out]} ∪ ({[ap]} ∪ ({[vp]} ∪ F))) ∖ {[vp]}) ∖ {[ap]} → vo ∈ F)
  ∧ (ao ∈ (({[out]} ∪ ({[ap]} ∪ ({[vp]} ∪ F))) ∖ {[vp]}) ∖ {[ap]} → ao ∈ F).
Proof. intros. repeat split; set_solver. Qed.

(** X4. When both streams were retrieved, the version probe succeeds and the
    merge command exits with status 0, [_download_single_video] returns
    [True]: the merged output named after the sanitized title exists, the two
    temporary files are gone, the separate video and audio outputs are not
    produced, and the processes run are the probe and then the merge of the
    two temporary files into the output, the video copied and the audio
    encoded as AAC. *)
Theorem merged_output_replaces_temp_files `{Runtime}
    (dir vid title q : string) (w0 w : World) (S : gmap string downloader.Stream) :
  downloader._get_video_streams vid w0 = (Ok (Some S), w) →
  completes (video_reply w) = true →
  completes (audio_reply w) = true →
  hd NoSuchProgram (procs w) = Exit0 →
  hd NoSuchProgram (tl (procs w)) = Exit0 →
  ∃ w', downloader._download_single_video dir vid title q w0 = (Ok true, w')
    ∧ merged_output dir title ∈ fs w'
    ∧ (video_temp dir w ∉ fs w')
    ∧ (audio_temp dir w ∉ fs w')
    ∧ (video_output dir title ∈ fs w' → video_output dir title ∈ fs w0)
    ∧ (audio_output dir title ∈ fs w' → audio_output dir title ∈ fs w0)
    ∧ ∃ s, log w' = log w ++
             [Get (downloader.video s) []; Get (downloader.audio s) [];
              Run ["ffmpeg"; "-version"];
              Run ["ffmpeg"; "-i"; video_temp dir w; "-i"; audio_temp dir w;
                   "-c:v"; "copy"; "-c:a"; "aac"; "-strict"; "experimental";
                   merged_output dir title]].
Proof.
  intros Hs Hv Ha Hp1 Hp2.
  destruct (download_single_video_run dir vid title q w0 S w Hs)
    as (Hfs & t & s & Hsel & ->).
  rewrite (download_streams_run _ _ _ _ _ _ _ Hsel), Hv, Ha. cbn [andb].
  destruct (outputs_and_temp_files dir title w)
    as (Hva & Hov & Hoa & Hav & Haa & Hmv & Hma & Hmo & Hmb).
  destruct (removed_temp_files (fs w0) (video_temp dir w) (audio_temp dir w)
              (video_output dir title) (audio_output dir title) (merged_output dir title)
              Hva Hmv Hma Hmo Hmb) as (G1 & G2 & G3 & G4 & G5).
  assert (fs (after_downloads dir s w)
          = {[audio_temp dir w]} ∪ ({[video_temp dir w]} ∪ fs w0)) as Hafter.
  { unfold after_downloads, created. cbn [fs].
    by rewrite (completes_opened _ Hv), (completes_opened _ Ha), Hfs. }
  rewrite merge_done_run;
    [|exact Hp1|exact Hp2|rewrite Hafter; clear; set_solver|rewrite Hafter; clear; set_solver
     |exact Hva].
  rewrite Hafter. eexists. split; [reflexivity|]. cbn [fs log after_downloads].
  split; [exact G1|]. split; [exact G2|]. split; [exact G3|]. split; [exact G4|].
  split; [exact G5|].
  exists s. by rewrite <- app_assoc.
Qed.

(** X5. When both streams were retrieved and the merge fails (the probe or
    the merge command ends in an error other than the tool being reported
    unavailable), [_download_single_video] returns [False] and touches no
    file: both temporary files are left in the output directory and no
    output is produced. *)
Theorem failed_merge_leaves_temp_files `{Runtime}
    (dir vid title q : string) (w0 w : World) (S : gmap string downloader.Stream) :
  downloader._get_video_streams vid w0 = (Ok (Some S), w) →
  completes (video_reply w) = true →
  completes (audio_reply w) = true →
  merge_fails (procs w) →
  ∃ w', downloader._download_single_video dir vid title q w0 = (Ok false, w')
    ∧ fs w' = {[audio_temp dir w]} ∪ ({[video_temp dir w]} ∪ fs w0)
    ∧ (merged_output dir title ∈ fs w' → merged_output dir title ∈ fs w0).
Proof.
  intros Hs Hv Ha Hp.
  destruct (download_single_video_run dir vid title q w0 S w Hs)
    as (Hfs & t & s & Hsel & ->).
  rewrite (download_streams_run _ _ _ _ _ _ _ Hsel), Hv, Ha. cbn [andb].
  destruct (outputs_and_temp_files dir title w)
    as (Hva & Hov & Hoa & Hav & Haa & Hmv & Hma & Hmo & Hmb).
  assert (fs (after_downloads dir s w)
          = {[audio_temp dir w]} ∪ ({[video_temp dir w]} ∪ fs w0)) as Hafter.
  { unfold after_downloads, created. cbn [fs].
    by rewrite (completes_opened _ Hv), (completes_opened _ Ha), Hfs. }
  destruct (merge_failed_run dir (Text.sanitize title) (video_temp dir w) (audio_temp dir w)
              (merged_output dir title) (after_downloads dir s w)) as (ps & new & ->);
    [exact Hp|].
  rewrite Hafter. eexists. split; [reflexivity|]. cbn [fs]. split; [reflexivity|].
  revert Hmv Hma. generalize (merged_output dir title) (video_temp dir w) (audio_temp dir w).
  clear. intros out vp ap ? ?. set_solver.
Qed.




(** ** The ids read from links *)

Lemma strip_prefix_app p s r : Text.strip_prefix p s = Some r → s = p +:+ r.
Proof.
  revert s. induction p as [|a p IH]; intros s Hs.
  - cbn in Hs. by injection Hs as ->.
  - destruct s as [|b s]; [done|]. cbn in Hs.
    destruct (Ascii.eqb_spec a b) as [->|]; [|done].
    rewrite append_cons. f_equal. by apply IH.
Qed.

Lemma strip_prefix_of_app p r : Text.strip_prefix p (p +:+ r) = Some r.
Proof.
  induction p as [|a p IH]; [reflexivity|]. rewrite append_cons. cbn.
  by rewrite Ascii.eqb_refl.
Qed.

Lemma span_digits_spec s d r :
  Text.span_digits s = (d, r) →
  s = d +:+ r ∧ all_digits d = true ∧ no_leading_digit r = true.
Proof.
  revert d r. induction s as [|c s IH]; intros d r Hs; cbn in Hs.
  - by injection Hs as <- <-.
  - destruct (Text.is_digit c) eqn:Hc.
    + destruct (Text.span_digits s) as [d' r'] eqn:Hs'. injection Hs as <- <-.
      destruct (IH d' r' eq_refl) as (-> & Hd & Hr).
      rewrite append_cons. cbn. by rewrite Hc, Hd.
    + injection Hs as <- <-. cbn. by rewrite Hc.
Qed.

Lemma span_digits_app d r :
  all_digits d = true → no_leading_digit r = true → Text.span_digits (d +:+ r) = (d, r).
Proof.
  intros Hd Hr. induction d as [|c d IH].
  - rewrite append_nil_l. destruct r as [|c r]; [reflexivity|]. cbn in *.
    by destruct (Text.is_digit c).
  - cbn in Hd. apply andb_prop in Hd as [Hc Hd]. rewrite append_cons. cbn.
    by rewrite Hc, (IH Hd).
Qed.

Lemma match_part_vid_spec s g :
  Text.match_part_vid s = Some g →
  ∃ d1 d2 post,
    s = "ac" +:+ d1 +:+ "_" +:+ d2 +:+ post ∧ g = d1 +:+ "_" +:+ d2
    ∧ all_digits d1 = true ∧ d1 ≠ EmptyString
    ∧ all_digits d2 = true ∧ d2 ≠ EmptyString.
Proof.
  unfold Text.match_part_vid. intros Hm.
  destruct (Text.strip_prefix "ac" s) as [r|] eqn:Hp; [|done].
  apply strip_prefix_app in Hp as ->.
  destruct (Text.span_digits r) as [d1 r1] eqn:H1.
  apply span_digits_spec in H1 as (-> & Hd1 & _).
  destruct d1 as [|c1 d1]; [done|].
  destruct r1 as [|u r2]; [done|].
  destruct (Ascii.eqb_spec u "_") as [->|Hu].
  - destruct (Text.span_digits r2) as [d2 r3] eqn:H2.
    apply span_digits_spec in H2 as (-> & Hd2 & _).
    destruct d2 as [|c2 d2]; [done|]. injection Hm as <-.
    by exists (String c1 d1), (String c2 d2), r3.
  - exfalso. revert Hm. clear -Hu.
    destruct u as [[] [] [] [] [] [] [] []]; done.
Qed.

Lemma search_part_vid_spec s g :
  Text.search_part_vid s = Some g →
  ∃ pre d1 d2 post,
    s = pre +:+ "ac" +:+ d1 +:+ "_" +:+ d2 +:+ post ∧ g = d1 +:+ "_" +:+ d2
    ∧ all_digits d1 = true ∧ d1 ≠ EmptyString
    ∧ all_digits d2 = true ∧ d2 ≠ EmptyString.
Proof.
  induction s as [|c s IH]; cbn [Text.search_part_vid]; intros Hs.
  - destruct (Text.match_part_vid EmptyString) eqn:Hm; [|done].
    injection Hs as ->. apply match_part_vid_spec in Hm as (d1 & d2 & post & ? & ?).
    by exists EmptyString, d1, d2, post.
  - destruct (Text.match_part_vid (String c s)) eqn:Hm.
    + injection Hs as ->. apply match_part_vid_spec in Hm as (d1 & d2 & post & ? & ?).
      by exists EmptyString, d1, d2, post.
    + destruct (IH Hs) as (pre & d1 & d2 & post & -> & ?).
      by exists (String c pre), d1, d2, post.
Qed.

(** X7. The id of a part, as [get_multi_p_info] reads it from an entry of the
    part list: it is the empty string when the [data-href] of the entry holds
    no [ac] followed by digits, an underscore and digits; otherwise it is
    such a run of digits, underscore and digits, taken from the [data-href]
    right after an [ac].  The title is the [title] attribute, or the fixed
    default.  An entry is never left out. *)
Theorem part_id_is_empty_or_base_and_index (li_elem : bs4.Node) :
  ∃ v,
    extractor.part_of_li li_elem
    = models.PartVideoMetadata (Vid v)
        (bs4.get li_elem "title" extractor.unknown_part_title)
    ∧ ((v = EmptyString
        ∧ Text.search_part_vid (bs4.get li_elem "data-href" EmptyString) = None)
       ∨ ∃ pre d1 d2 post,
           bs4.get li_elem "data-href" EmptyString
           = pre +:+ "ac" +:+ d1 +:+ "_" +:+ d2 +:+ post
           ∧ v = d1 +:+ "_" +:+ d2
           ∧ all_digits d1 = true ∧ d1 ≠ EmptyString
           ∧ all_digits d2 = true ∧ d2 ≠ EmptyString).
Proof.
  unfold extractor.part_of_li.
  destruct (Text.search_part_vid _) as [g|] eqn:Hs.
  - exists g. split; [reflexivity|]. right.
    apply search_part_vid_spec in Hs as (pre & d1 & d2 & post & ? & ? & ?).
    by exists pre, d1, d2, post.
  - exists EmptyString. split; [reflexivity|]. by left.
Qed.

Lemma match_part_vid_of_link b i rest :
  all_digits b = true → b ≠ EmptyString → all_digits i = true → i ≠ EmptyString →
  no_leading_digit rest = true →
  Text.match_part_vid (String "a" (String "c" (b +:+ String "_" (i +:+ rest))))
  = Some (b +:+ "_" +:+ i).
Proof.
  intros Hb Hb0 Hi Hi0 Hr. unfold Text.match_part_vid.
  change (Text.strip_prefix "ac" (String "a" (String "c" ?r))) with (Some r).
  cbn iota. rewrite (span_digits_app b (String "_" (i +:+ rest))) by done.
  destruct b as [|c b]; [done|]. cbn iota.
  rewrite (span_digits_app i rest) by done.
  by destruct i.
Qed.

Lemma search_part_vid_skip c s :
  Text.match_part_vid (String c s) = None →
  Text.search_part_vid (String c s) = Text.search_part_vid s.
Proof. intros Hm. cbn [Text.search_part_vid]. by rewrite Hm. Qed.

Lemma search_part_vid_here c s g :
  Text.match_part_vid (String c s) = Some g →
  Text.search_part_vid (String c s) = Some g.
Proof. intros Hm. cbn [Text.search_part_vid]. by rewrite Hm. Qed.

(** X8. The form base, underscore, part index survives the parsing: for a
    link [/v/ac] base [_] index, with base and index non-empty runs of
    digits, followed by nothing or by something that is no digit, the id
    read from the link is base [_] index. *)
Theorem part_id_round_trip (b i rest : string) :
  all_digits b = true → b ≠ EmptyString →
  all_digits i = true → i ≠ EmptyString →
  no_leading_digit rest = true →
  Text.search_part_vid ("/v/ac" +:+ b +:+ "_" +:+ i +:+ rest) = Some (b +:+ "_" +:+ i).
Proof.
  intros Hb Hb0 Hi Hi0 Hr.
  change ("/v/ac" +:+ b +:+ "_" +:+ i +:+ rest)
    with (String "/" (String "v" (String "/"
            (String "a" (String "c" (b +:+ String "_" (i +:+ rest))))))).
  do 3 (rewrite search_part_vid_skip by reflexivity).
  apply search_part_vid_here. by apply match_part_vid_of_link.
Qed.

Lemma match_digits_spec p s g :
  Text.match_digits p s = Some g →
  ∃ post, s = p +:+ g +:+ post ∧ all_digits g = true ∧ g ≠ EmptyString
          ∧ no_leading_digit post = true.
Proof.
  unfold Text.match_digits. intros Hm.
  destruct (Text.strip_prefix p s) as [r|] eqn:Hp; [|done].
  apply strip_prefix_app in Hp as ->.
  destruct (Text.span_digits r) as [d r1] eqn:H1.
  apply span_digits_spec in H1 as (-> & Hd & Hr).
  destruct d as [|c d]; [done|]. injection Hm as <-. by exists r1.
Qed.

Lemma search_digits_spec p s g :
  Text.search_digits p s = Some g →
  ∃ pre post, s = pre +:+ p +:+ g +:+ post ∧ all_digits g = true ∧ g ≠ EmptyString
              ∧ no_leading_digit post = true.
Proof.
  induction s as [|c s IH]; cbn [Text.search_digits]; intros Hs.
  - destruct (Text.match_digits p EmptyString) eqn:Hm; [|done].
    injection Hs as ->. apply match_digits_spec in Hm as (post & ? & ?).
    by exists EmptyString, post.
  - destruct (Text.match_digits p (String c s)) eqn:Hm.
    + injection Hs as ->. apply match_digits_spec in Hm as (post & ? & ?).
      by exists EmptyString, post.
    + destruct (IH Hs) as (pre & post & -> & ?).
      by exists (String c pre), post.
Qed.

Lemma match_digits_ac b rest :
  all_digits b = true → b ≠ EmptyString → no_leading_digit rest = true →
  Text.match_digits "ac" (String "a" (String "c" (b +:+ rest))) = Some b.
Proof.
  intros Hb Hb0 Hr. unfold Text.match_digits.
  change (Text.strip_prefix "ac" (String "a" (String "c" ?r))) with (Some r).
  cbn iota. rewrite span_digits_app by done. by destruct b.
Qed.

Lemma search_digits_skip p c s :
  Text.match_digits p (String c s) = None →
  Text.search_digits p (String c s) = Text.search_digits p s.
Proof. intros Hm. cbn [Text.search_digits]. by rewrite Hm. Qed.

Lemma search_digits_here p c s g :
  Text.match_digits p (String c s) = Some g →
  Text.search_digits p (String c s) = Some g.
Proof. intros Hm. cbn [Text.search_digits]. by rewrite Hm. Qed.

(** X9. The video id that lines 110 and 318 of the extractor and line 65 of
    the downloader read from a link: for [/v/ac] and a non-empty run of
    digits, alone or in a full URL of the site, it is that run; so for the
    link of a part, where an underscore and the part index follow, it is the
    base id, the same for every part of a video. *)
Theorem video_id_of_link (b rest : string) :
  all_digits b = true → b ≠ EmptyString → no_leading_digit rest = true →
  Text.search_digits "ac" ("/v/ac" +:+ b +:+ rest) = Some b
  ∧ Text.search_digits "ac" ("https://www.acfun.cn/v/ac" +:+ b +:+ rest) = Some b
  ∧ (∀ i, Text.search_digits "ac" ("https://www.acfun.cn/v/ac" +:+ b +:+ "_" +:+ i) = Some b).
Proof.
  intros Hb Hb0 Hr.
  assert (∀ tail, no_leading_digit tail = true →
                  Text.search_digits "ac" ("https://www.acfun.cn/v/ac" +:+ b +:+ tail)
                  = Some b) as Hurl.
  { intros tail Ht. rewrite !append_cons, append_nil_l.
    do 23 (rewrite search_digits_skip by reflexivity).
    apply search_digits_here. by apply match_digits_ac. }
  split; [|split].
  - rewrite !append_cons, append_nil_l.
    do 3 (rewrite search_digits_skip by reflexivity).
    apply search_digits_here. by apply match_digits_ac.
  - by apply Hurl.
  - intros i. by apply Hurl.
Qed.

(** ** More on the extractor *)

(** X10. [get_multi_p_info] never raises, sends one request and touches no
    file.  When the request fails it returns the empty list; when the page
    has no part region, [MultiPartInfo(False, [])]; and when it has one,
    [MultiPartInfo(True, parts)] with one part for every [li.single-p] of the
    region, in document order, also when there is no such entry at all. *)
Theorem multi_p_info_outcomes `{Runtime} (vid : string) (w : World) :
  ∃ r,
    extractor.get_multi_p_info vid w =
      (Ok r, mkWorld (fs w) (tl (net w)) (entropy w) (procs w) (clock w)
               (log w ++ [Get ("https://www.acfun.cn/v/ac" +:+ vid) []]))
    ∧ (usable (hd Unreachable (net w)) = None → r = PyList [])
    ∧ (∀ text, usable (hd Unreachable (net w)) = Some text →
         match part_entries (extractor.BeautifulSoup text) with
         | None => r = models.MultiPartInfo false []
         | Some lis =>
             ∃ parts, r = models.MultiPartInfo true parts
               ∧ length parts = length lis
               ∧ ∀ i li, lis !! i = Some li → parts !! i = Some (extractor.part_of_li li)
         end).
Proof.
  rewrite get_multi_p_info_run. eexists. split; [reflexivity|]. split.
  - by intros ->.
  - intros text ->. destruct (part_entries _) as [lis|]; [|reflexivity].
    exists (extractor.part_of_li <$> lis). split; [reflexivity|]. split.
    + apply length_fmap.
    + intros i li Hi. by rewrite list_lookup_fmap, Hi.
Qed.

(** The title that [get_video_info] reads from a page, lines 67-68. *)
Lemma video_info_when_parts_fail `{Runtime} vid w a :
  hd Unreachable (net w) = Answer a →
  intact a && status_ok a = true →
  usable (hd Unreachable (tl (net w))) = None →
  ∃ title cover uploader date,
    (extractor.get_video_info vid w).1
    = Ok (extractor.VideoMetadata (Vid vid) title cover uploader date false [])
    ∧ title = match bs4.select_one (bs4.by_name_class "h1" "title", [])
                      (extractor.BeautifulSoup (body a)) with
              | Some title_elem => Text.strip (bs4.text title_elem)
              | None => "Unknown Title"
              end.
Proof.
  intros H1 Hok1 H2.
  unfold extractor.get_video_info, try_except. rewrite fetch_run. cbn zeta.
  rewrite H1, Hok1.
  destruct (extractor.uploader_of _) as [uploader_name uploader_uid].
  unfold bind at 1. unfold datetime_now at 1. cbn [fst snd].
  unfold bind at 1. rewrite get_multi_p_info_run. cbn [net tl].
  rewrite H2. cbn. eauto 10.
Qed.

Lemma get_video_info_world `{Runtime} vid w :
  (extractor.get_video_info vid w).2 =
    match usable (hd Unreachable (net w)) with
    | Some _ =>
        mkWorld (fs w) (tl (tl (net w))) (entropy w) (procs w) (clock w)
          ((log w ++ [Get ("https://www.acfun.cn/v/ac" +:+ vid) []])
           ++ [Get ("https://www.acfun.cn/v/ac" +:+ vid) []])
    | None =>
        mkWorld (fs w) (tl (net w)) (entropy w) (procs w) (clock w)
          (log w ++ [Get ("https://www.acfun.cn/v/ac" +:+ vid) []])
    end.
Proof.
  unfold extractor.get_video_info, try_except. rewrite fetch_run. cbn zeta.
  destruct (hd Unreachable (net w)) as [|a]; [done|]. cbn [usable].
  destruct (intact a && status_ok a); [|done].
  destruct (extractor.uploader_of _) as [uploader_name uploader_uid].
  unfold bind at 1. unfold datetime_now at 1. cbn [fst snd].
  unfold bind at 1. rewrite get_multi_p_info_run. cbn [net tl fs log].
  destruct (usable (hd Unreachable (tl (net w)))) as [text|];
    [destruct (part_entries _)|]; reflexivity.
Qed.

Lemma get_video_info_log `{Runtime} vid w :
  log (extractor.get_video_info vid w).2 =
    log w ++ match usable (hd Unreachable (net w)) with
             | Some _ => [Get ("https://www.acfun.cn/v/ac" +:+ vid) [];
                          Get ("https://www.acfun.cn/v/ac" +:+ vid) []]
             | None => [Get ("https://www.acfun.cn/v/ac" +:+ vid) []]
             end
  ∧ fs (extractor.get_video_info vid w).2 = fs w.
Proof.
  rewrite get_video_info_world.
  destruct (usable _); cbn [log fs]; [by rewrite <- app_assoc|done].
Qed.

(** X11. [get_video_info] never raises and touches no file.  It requests the
    video page, and when that request is answered it requests the same page
    a second time, through [get_multi_p_info].  It returns a record only when
    the first request is answered and the second one is not; the record then
    has [has_multi_p = False] and no parts.  When both requests are answered
    it returns [None], whatever the page holds, and so it does when the first
    request fails. *)
Theorem video_info_outcomes `{Runtime} (vid : string) (w : World) :
  let url := "https://www.acfun.cn/v/ac" +:+ vid in
  (∃ r, (extractor.get_video_info vid w).1 = Ok r)
  ∧ fs (extractor.get_video_info vid w).2 = fs w
  ∧ (usable (hd Unreachable (net w)) = None →
     (extractor.get_video_info vid w).1 = Ok PyNone
     ∧ log (extractor.get_video_info vid w).2 = log w ++ [Get url []])
  ∧ (∀ text, usable (hd Unreachable (net w)) = Some text →
     log (extractor.get_video_info vid w).2 = log w ++ [Get url []; Get url []]
     ∧ (usable (hd Unreachable (tl (net w))) ≠ None →
        (extractor.get_video_info vid w).1 = Ok PyNone)
     ∧ (usable (hd Unreachable (tl (net w))) = None →
        ∃ title cover uploader date,
          (extractor.get_video_info vid w).1
          = Ok (extractor.VideoMetadata (Vid vid) title cover uploader date false []))).
Proof.
  cbn zeta. destruct (get_video_info_log vid w) as [Hlog Hfs].
  split; [|split; [exact Hfs|split]].
  - unfold extractor.get_video_info, try_except.
    destruct (bind _ _ w) as [[r|e] w']; cbn; eauto.
  - intros Hu. rewrite Hlog, Hu. split; [|done].
    unfold extractor.get_video_info, try_except. rewrite fetch_run. cbn zeta.
    destruct (hd Unreachable (net w)) as [|a]; [done|]. cbn in Hu.
    destruct (intact a && status_ok a); done.
  - intros text Hu. rewrite Hlog, Hu. split; [done|]. split.
    + intros H2. destruct (usable (hd Unreachable (tl (net w)))) as [t2|] eqn:E; [|done].
      by eapply get_video_info_none.
    + intros H2. apply usable_some in Hu as (a & Ha & Hok & _).
      destruct (video_info_when_parts_fail vid w a Ha Hok H2)
        as (title & cover & uploader & date & Hr & _).
      eauto 10.
Qed.

(** ** More on the catalogue *)

(** X12. What ends [get_up_videos] early.  When the request for the landing
    page fails it returns [None]; that is the only failure it catches.  When
    the uploader's name element has no [title] attribute it raises
    [KeyError], and when the text of the count element is no integer it
    raises [ValueError].  In each case the landing page is the only page
    requested. *)
Theorem up_videos_failures `{Runtime} (uid : string) (fetch_all_pages : bool) (w : World) :
  let w1 := mkWorld (fs w) (tl (net w)) (entropy w) (procs w) (clock w)
              (log w ++ [Get ("https://www.acfun.cn/u/" +:+ uid) []]) in
  (usable (hd Unreachable (net w)) = None →
   extractor.get_up_videos uid fetch_all_pages w = (Ok PyNone, w1))
  ∧ (∀ text e,
       usable (hd Unreachable (net w)) = Some text →
       extractor.uploader_name_of (extractor.BeautifulSoup text) = Raise e →
       e = KeyError
       ∧ extractor.get_up_videos uid fetch_all_pages w = (Raise KeyError, w1))
  ∧ (∀ text name e,
       usable (hd Unreachable (net w)) = Some text →
       extractor.uploader_name_of (extractor.BeautifulSoup text) = Ok name →
       extractor.video_count_of (extractor.BeautifulSoup text) = Raise e →
       e = ValueError
       ∧ extractor.get_up_videos uid fetch_all_pages w = (Raise ValueError, w1)).
Proof.
  cbn zeta. split; [|split].
  - intros Hu. unfold extractor.get_up_videos, try_except. rewrite fetch_run. cbn zeta.
    destruct (hd Unreachable (net w)) as [|a]; [done|]. cbn in Hu.
    by destruct (intact a && status_ok a).
  - intros text e (a & Ha & Hok & <-)%usable_some Hname.
    assert (e = KeyError) as ->.
    { revert Hname. unfold extractor.uploader_name_of, bs4.getitem.
      destruct (bs4.select_one _ _); [|done]. destruct (bs4.lookup_attr _ _); [done|].
      by intros [= <-]. }
    split; [done|].
    unfold extractor.get_up_videos, try_except. rewrite fetch_run. cbn zeta.
    by rewrite Ha, Hok, Hname.
  - intros text name e (a & Ha & Hok & <-)%usable_some Hname Hcount.
    assert (e = ValueError) as ->.
    { revert Hcount. unfold extractor.video_count_of.
      destruct (bs4.select_one _ _); [|done]. destruct (Text.int _); [done|].
      by intros [= <-]. }
    split; [done|].
    unfold extractor.get_up_videos, try_except. rewrite fetch_run. cbn zeta.
    by rewrite Ha, Hok, Hname, Hcount.
Qed.

Lemma fetch_page_keeps `{Runtime} url uploader page video_list w :
  ∃ extra w',
    extractor.fetch_page url uploader page video_list w = (Ok (video_list ++ extra), w')
    ∧ net w' = tl (net w)
    ∧ (usable (hd Unreachable (net w)) = None → extra = []).
Proof.
  unfold extractor.fetch_page. unfold bind at 1, time_ms at 1.
  unfold try_except. rewrite fetch_run. cbn zeta.
  set (w1 := mkWorld _ _ _ _ _ _).
  assert (net w1 = tl (net w)) as Hn by reflexivity.
  destruct (hd Unreachable (net w)) as [|a].
  { exists [], w1. rewrite app_nil_r. by split. }
  cbn [usable].
  destruct (intact a && status_ok a).
  2:{ exists [], w1. rewrite app_nil_r. by split. }
  unfold bind at 1, lift at 1.
  destruct (json_loads _) as [json_obj|].
  2:{ exists [], w1. rewrite app_nil_r. by split. }
  unfold bind at 1, lift at 1.
  destruct (extractor.get_html json_obj) as [html_content|e].
  2:{ exists [], w1. rewrite app_nil_r. by split. }
  unfold bind at 1, lift at 1.
  destruct (as_str html_content) as [html|e].
  2:{ exists [], w1. rewrite app_nil_r. by split. }
  eexists _, _. split; [reflexivity|]. by split.
Qed.

Lemma fetch_pages_keep `{Runtime} url uploader pages video_list w :
  ∃ extra w',
    for_each pages (extractor.fetch_page url uploader) video_list w
    = (Ok (video_list ++ extra), w')
    ∧ (Forall (λ r, usable r = None) (net w) → extra = []).
Proof.
  revert video_list w. induction pages as [|page pages IH]; intros video_list w.
  - exists [], w. cbn. by rewrite app_nil_r.
  - cbn [for_each]. unfold bind.
    destruct (fetch_page_keeps url uploader page video_list w)
      as (e1 & w1 & -> & Hnet & He1).
    destruct (IH (video_list ++ e1) w1) as (e2 & w2 & -> & He2).
    exists (e1 ++ e2), w2. split; [by rewrite app_assoc|].
    intros Hall. rewrite He1, He2; [done| |].
    + rewrite Hnet. destruct (net w); [done|]. by inversion Hall.
    + destruct (net w); [done|]. by inversion Hall.
Qed.

(** X13. The videos of the landing page are never lost: once the landing page
    is fetched and read, the list that [get_up_videos] returns begins with
    the videos of that page, in page order, whatever happens to the further
    pages; and it is exactly that list when only the landing page is asked
    for, or when none of the further requests is answered. *)
Theorem up_videos_keep_the_first_page `{Runtime}
    (uid : string) (fetch_all_pages : bool) (w : World) (text name : string) (N : Z) :
  usable (hd Unreachable (net w)) = Some text →
  extractor.uploader_name_of (extractor.BeautifulSoup text) = Ok name →
  extractor.video_count_of (extractor.BeautifulSoup text) = Ok N →
  ∃ rest,
    (extractor.get_up_videos uid fetch_all_pages w).1
    = Ok (PyList (extractor._parse_video_page (extractor.BeautifulSoup text)
                    (models.Uploader (Uid uid) name) ++ rest))
    ∧ (fetch_all_pages = false → rest = [])
    ∧ ((N ≤ 20)%Z → rest = [])
    ∧ (Forall (λ r, usable r = None) (tl (net w)) → rest = []).
Proof.
  intros (a & Ha & Hok & <-)%usable_some Hname Hcount.
  unfold extractor.get_up_videos, try_except. rewrite fetch_run. cbn zeta.
  rewrite Ha, Hok, Hname, Hcount. unfold bind at 1, lift at 1. unfold bind at 1, lift at 1.
  set (w1 := mkWorld _ _ _ _ _ _).
  destruct (fetch_all_pages && (20 <? N)%Z) eqn:Hflag.
  - apply andb_prop in Hflag as [-> HN%Z.ltb_lt].
    unfold bind at 1.
    destruct (fetch_pages_keep ("https://www.acfun.cn/u/" +:+ uid)
                (models.Uploader (Uid uid) name)
                (extractor.range 2 (extractor.total_pages N + 1))
                (extractor._parse_video_page (extractor.BeautifulSoup (body a))
                   (models.Uploader (Uid uid) name)) w1)
      as (rest & w2 & Hrun & Hrest).
    exists rest. split.
    + change (extractor.base_url +:+ "/u/" +:+ uid) with ("https://www.acfun.cn/u/" +:+ uid).
      by rewrite Hrun.
    + split; [done|]. split; [lia|]. exact Hrest.
  - exists []. rewrite app_nil_r. by split.
Qed.

Lemma before_char_free c s p :
  Text.before (String c EmptyString) s = Some p → occurs c p = false.
Proof.
  revert p. induction s as [|d s IH]; intros p Hb; cbn in Hb.
  - done.
  - destruct (Ascii.eqb_spec c d) as [->|Hne].
    + by injection Hb as <-.
    + destruct (Text.before _ s) as [p'|]; [|done]. injection Hb as <-.
      cbn. rewrite (IH p' eq_refl). by destruct (Ascii.eqb_spec c d).
Qed.

Lemma before_none_char_free c s :
  Text.before (String c EmptyString) s = None → occurs c s = false.
Proof.
  induction s as [|d s IH]; intros Hb; cbn in Hb; [done|].
  destruct (Ascii.eqb_spec c d) as [->|Hne]; [done|].
  destruct (Text.before _ s) as [p'|]; [done|].
  cbn. rewrite IH by done. by destruct (Ascii.eqb_spec c d).
Qed.

Lemma split_head_char_free c s : occurs c (Text.split_head (String c EmptyString) s) = false.
Proof.
  unfold Text.split_head.
  destruct (Text.before _ s) as [p|] eqn:Hb; cbn.
  - by eapply before_char_free.
  - by apply before_none_char_free.
Qed.

(** X14. Every entry that [_parse_video_page] makes of a catalogue page: its
    id is the empty string or a non-empty run of digits, its cover location
    holds no question mark (a query string is cut off), its date is a date or
    [None], its uploader is the one handed in, its [multi_p] is [None] and it
    has no key [has_multi_p]. *)
Theorem listed_video_shape `{Runtime} (soup : bs4.Node) (uploader v : PyObj) :
  v ∈ extractor._parse_video_page soup uploader →
  ∃ id title cover date,
    v = extractor.listed_video (Vid id) title cover uploader date
    ∧ (id = EmptyString ∨ (all_digits id = true ∧ id ≠ EmptyString))
    ∧ occurs "?" cover = false
    ∧ (date = PyNone ∨ ∃ t, date = PyDatetime t)
    ∧ Py.getitem v "uploader" = Ok uploader
    ∧ Py.getitem v "multi_p" = Ok PyNone
    ∧ Py.getitem v "has_multi_p" = Raise KeyError.
Proof.
  unfold extractor._parse_video_page. intros (item & -> & _)%list_elem_of_fmap.
  unfold extractor.video_of_item. eexists _, _, _, _. split; [reflexivity|].
  split; [|split; [|split; [|by repeat split]]].
  - destruct (Text.search_digits "ac" _) as [g|] eqn:Hs; cbn; [|by left].
    right. apply search_digits_spec in Hs as (pre & post & _ & Hd & Hne & _). done.
  - destruct (bs4.select_one _ item); [|done].
    destruct (bs4.has_attr _ _); [|done]. apply split_head_char_free.
  - destruct (bs4.select_one (bs4.by_class "date", []) item); [|by left].
    destruct (strptime _ _); [right; eauto|by left].
Qed.

(** ** The two entry points of the downloader *)


Lemma fetch_page_effects `{Runtime} url uploader page video_list w :
  ∃ video_list' w' new,
    extractor.fetch_page url uploader page video_list w = (Ok video_list', w')
    ∧ fs w' = fs w ∧ procs w' = procs w ∧ entropy w' = entropy w
    ∧ log w' = log w ++ new
    ∧ forallb (catalogue_event url) new = true.
Proof.
  unfold extractor.fetch_page. unfold bind at 1, time_ms at 1.
  unfold try_except. rewrite fetch_run. cbn zeta.
  set (w1 := mkWorld _ _ _ _ _ _).
  assert (forallb (catalogue_event url) [Get url (extractor.page_params page (clock w))]
          = true) as Hp.
  { cbn. by rewrite String.eqb_refl. }
  assert (log w1 = log w ++ [Get url (extractor.page_params page (clock w))]) as Hl
    by reflexivity.
  assert (fs w1 = fs w ∧ procs w1 = procs w ∧ entropy w1 = entropy w) as (Hf & Hpr & He)
    by done.
  destruct (hd Unreachable (net w)) as [|a]; [by eauto 12|].
  destruct (intact a && status_ok a); [|by eauto 12].
  unfold bind at 1, lift at 1.
  destruct (json_loads _) as [json_obj|]; [|by eauto 12].
  unfold bind at 1, lift at 1.
  destruct (extractor.get_html json_obj) as [html_content|e]; [|by eauto 12].
  unfold bind at 1, lift at 1.
  destruct (as_str html_content) as [html|e]; [|by eauto 12].
  eexists _, _, [Get url (extractor.page_params page (clock w)); Sleep 500].
  split; [reflexivity|]. cbn [fs procs entropy log].
  split; [done|]. split; [done|]. split; [done|]. split.
  - rewrite Hl. by rewrite <- app_assoc.
  - cbn. by rewrite String.eqb_refl.
Qed.

Lemma fetch_pages_effects `{Runtime} url uploader pages video_list w :
  ∃ video_list' w' new,
    for_each pages (extractor.fetch_page url uploader) video_list w = (Ok video_list', w')
    ∧ fs w' = fs w ∧ procs w' = procs w ∧ entropy w' = entropy w
    ∧ log w' = log w ++ new
    ∧ forallb (catalogue_event url) new = true.
Proof.
  revert video_list w. induction pages as [|page pages IH]; intros video_list w.
  - exists video_list, w, []. cbn. by rewrite app_nil_r.
  - cbn [for_each]. unfold bind.
    destruct (fetch_page_effects url uploader page video_list w)
      as (l1 & w1 & n1 & -> & Hf1 & Hp1 & He1 & Hl1 & Hc1).
    destruct (IH l1 w1) as (l2 & w2 & n2 & -> & Hf2 & Hp2 & He2 & Hl2 & Hc2).
    exists l2, w2, (n1 ++ n2). split; [reflexivity|].
    split; [congruence|]. split; [congruence|]. split; [congruence|]. split.
    + by rewrite Hl2, Hl1, app_assoc.
    + by rewrite forallb_app, Hc1, Hc2.
Qed.

(** What [get_up_videos] can return and do, for every state of the world. *)
Lemma get_up_videos_effects `{Runtime} uid fetch_all_pages w :
  ∃ r w' new,
    extractor.get_up_videos uid fetch_all_pages w = (r, w')
    ∧ (r = Ok PyNone ∨ (∃ videos, r = Ok (PyList videos))
       ∨ r = Raise KeyError ∨ r = Raise ValueError)
    ∧ fs w' = fs w ∧ procs w' = procs w ∧ entropy w' = entropy w
    ∧ log w' = log w ++ new
    ∧ forallb (catalogue_event ("https://www.acfun.cn/u/" +:+ uid)) new = true.
Proof.
  unfold extractor.get_up_videos, try_except. rewrite fetch_run. cbn zeta.
  change (extractor.base_url +:+ "/u/" +:+ uid) with ("https://www.acfun.cn/u/" +:+ uid).
  set (url := "https://www.acfun.cn/u/" +:+ uid).
  set (w1 := mkWorld _ _ _ _ _ _).
  assert (forallb (catalogue_event url) [Get url []] = true) as Hp.
  { cbn. by rewrite String.eqb_refl. }
  assert (log w1 = log w ++ [Get url []]) as Hl by reflexivity.
  assert (fs w1 = fs w ∧ procs w1 = procs w ∧ entropy w1 = entropy w) as (Hf & Hpr & He)
    by done.
  destruct (hd Unreachable (net w)) as [|a].
  { exists (Ok PyNone), w1, [Get url []]. cbn [ret]. by eauto 12. }
  destruct (intact a && status_ok a).
  2:{ exists (Ok PyNone), w1, [Get url []]. by eauto 12. }
  unfold bind at 1, lift at 1.
  destruct (extractor.uploader_name_of _) as [name|e] eqn:Hname.
  2:{ assert (e = KeyError) as ->.
      { revert Hname. unfold extractor.uploader_name_of, bs4.getitem.
        destruct (bs4.select_one _ _); [|done]. destruct (bs4.lookup_attr _ _); [done|].
        by intros [= <-]. }
      exists (Raise KeyError), w1, [Get url []]. by eauto 12. }
  unfold bind at 1, lift at 1.
  destruct (extractor.video_count_of _) as [N|e] eqn:Hcount.
  2:{ assert (e = ValueError) as ->.
      { revert Hcount. unfold extractor.video_count_of.
        destruct (bs4.select_one _ _); [|done]. destruct (Text.int _); [done|].
        by intros [= <-]. }
      exists (Raise ValueError), w1, [Get url []]. by eauto 12. }
  destruct (fetch_all_pages && (20 <? N)%Z).
  - unfold bind at 1.
    destruct (fetch_pages_effects url (models.Uploader (Uid uid) name)
                (extractor.range 2 (extractor.total_pages N + 1))
                (extractor._parse_video_page (extractor.BeautifulSoup (body a))
                   (models.Uploader (Uid uid) name)) w1)
      as (l2 & w2 & n2 & -> & Hf2 & Hp2 & He2 & Hl2 & Hc2).
    exists (Ok (PyList l2)), w2, ([Get url []] ++ n2). split; [reflexivity|].
    split; [by eauto|]. split; [congruence|]. split; [congruence|]. split; [congruence|].
    split.
    + by rewrite Hl2, Hl, app_assoc.
    + by rewrite forallb_app, Hp, Hc2.
  - eexists (Ok (PyList _)), w1, [Get url []]. split; [reflexivity|]. by eauto 12.
Qed.

(** X16. [download_up_videos] downloads nothing, whatever the network
    answers: it returns 0 (the catalogue could not be fetched, or is empty)
    or it raises; with a catalogue of at least one video it raises
    [TypeError], since the list is indexed by a string.  All it has done by
    then is what [get_up_videos] did: requests for the uploader's page and
    pauses; no file is made, no process is run, no random bytes are drawn. *)
Theorem batch_download_never_downloads `{Runtime}
    (dir uid : string) (max_videos : option Z) (quality : string) (w : World) :
  let r := downloader.download_up_videos dir uid max_videos quality w in
  (r.1 = Ok 0%Z ∨ r.1 = Raise TypeError ∨ r.1 = Raise KeyError ∨ r.1 = Raise ValueError)
  ∧ (∀ v videos, (extractor.get_up_videos uid true w).1 = Ok (PyList (v :: videos)) →
       r.1 = Raise TypeError)
  ∧ r.2 = (extractor.get_up_videos uid true w).2
  ∧ fs r.2 = fs w ∧ procs r.2 = procs w ∧ entropy r.2 = entropy w
  ∧ ∃ new, log r.2 = log w ++ new
      ∧ forallb (catalogue_event ("https://www.acfun.cn/u/" +:+ uid)) new = true.
Proof.
  cbn zeta.
  destruct (get_up_videos_effects uid true w)
    as (r & w' & new & Hget & Hr & Hf & Hp & He & Hl & Hc).
  assert (∃ x, downloader.download_up_videos dir uid max_videos quality w = (x, w')
               ∧ (x = Ok 0%Z ∨ x = Raise TypeError ∨ x = Raise KeyError ∨ x = Raise ValueError)
               ∧ (∀ v videos, r = Ok (PyList (v :: videos)) → x = Raise TypeError))
    as (x & Hrun & Hx & Hcat).
  { unfold downloader.download_up_videos, downloader.download_up_videos_via.
    unfold bind at 1. rewrite Hget.
    destruct Hr as [->|[[videos ->]|[->| ->]]].
    - exists (Ok 0%Z). split; [reflexivity|]. split; [by left|done].
    - destruct videos as [|v videos].
      + exists (Ok 0%Z). split; [reflexivity|]. split; [by left|done].
      + exists (Raise TypeError). split; [reflexivity|]. split; [by right; left|done].
    - exists (Raise KeyError). split; [reflexivity|]. split; [by right; right; left|done].
    - exists (Raise ValueError). split; [reflexivity|]. split; [by right; right; right|done]. }
  rewrite Hrun, Hget. cbn [fst snd].
  split; [exact Hx|]. split; [exact Hcat|]. split; [done|].
  split; [done|]. split; [done|]. split; [done|]. by exists new.
Qed.

(** ** The tier that a request is served with *)



(** ** Where the files go *)

Lemma no_slash_in_hex s : all_hex s = true → occurs "/" s = false.
Proof.
  induction s as [|c s IH]; [done|]. cbn [all_hex occurs].
  intros [Hc Hs]%andb_prop. rewrite (IH Hs), orb_false_r.
  apply Ascii.eqb_neq. by intros <-.
Qed.

(** X18. No title takes a file out of the output directory.  The merged
    output, the two split outputs and the two temporary files are all the
    directory prefix followed by a name that holds no slash, whatever the
    title and the random bytes are; and the name of an output differs from
    the sanitized title only by its ending. *)
Theorem files_stay_in_the_output_directory (dir title : string) (w : World) :
  ∃ merged video audio tv ta,
    merged_output dir title = dir_prefix dir +:+ merged
    ∧ video_output dir title = dir_prefix dir +:+ video
    ∧ audio_output dir title = dir_prefix dir +:+ audio
    ∧ video_temp dir w = dir_prefix dir +:+ tv
    ∧ audio_temp dir w = dir_prefix dir +:+ ta
    ∧ merged = Text.sanitize title +:+ ".mp4"
    ∧ video = Text.sanitize title +:+ "_video.mp4"
    ∧ audio = Text.sanitize title +:+ "_audio.m4a"
    ∧ Forall (λ name, occurs "/" name = false) [merged; video; audio; tv; ta].
Proof.
  exists (Text.sanitize title +:+ ".mp4"), (Text.sanitize title +:+ "_video.mp4"),
    (Text.sanitize title +:+ "_audio.m4a"),
    ("temp_" +:+ "video" +:+ "_" +:+ Text.hex (next_token (entropy w))),
    ("temp_" +:+ "audio" +:+ "_" +:+ Text.hex (next_token (drop 4 (entropy w)))).
  assert (occurs "/" (Text.sanitize title) = false) as Hs
    by by apply forbidden_not_in_sanitized.
  split; [by apply output_prefix|]. split; [by apply output_prefix|].
  split; [by apply output_prefix|]. split; [by apply temp_path_prefix|].
  split; [by apply temp_path_prefix|]. split; [done|]. split; [done|]. split; [done|].
  repeat apply Forall_cons_2; try apply Forall_nil_2.
  - rewrite occurs_app, Hs. reflexivity.
  - rewrite occurs_app, Hs. reflexivity.
  - rewrite occurs_app, Hs. reflexivity.
  - rewrite !occurs_app, (no_slash_in_hex (Text.hex _)); [reflexivity|]. apply hex_shape.
  - rewrite !occurs_app, (no_slash_in_hex (Text.hex _)); [reflexivity|]. apply hex_shape.
Qed.

(** ** Instances of the further statements *)

(** An instance of X4: both streams arrive, the probe and the merge command
    exit with status 0; the title [clip] gives the output [clip.mp4]. *)
Lemma merged_output_replaces_temp_files_witness :
  ∃ w',
    @downloader._download_single_video example_runtime "./downloads" "12345" "clip" "720p"
      (world [answer blob_markup; answer "v"; answer "a"] [Exit0; Exit0]) = (Ok true, w')
    ∧ "./downloads/clip.mp4" ∈ fs w'
    ∧ ("./downloads/temp_video_00010203" ∉ fs w')
    ∧ ("./downloads/temp_audio_04050607" ∉ fs w').
Proof.
  destruct (@merged_output_replaces_temp_files example_runtime
              "./downloads" "12345" "clip" "720p"
              (world [answer blob_markup; answer "v"; answer "a"] [Exit0; Exit0])
              (mkWorld ∅ [answer "v"; answer "a"]
                 [x00; x01; x02; x03; x04; x05; x06; x07] [Exit0; Exit0] 1000
                 [Get "https://www.acfun.cn/v/ac12345" []])
              (downloader.placeholder_streams "12345"))
    as (w' & Hrun & Hm & Hv & Ha & _).
  - vm_compute. reflexivity.
  - vm_compute. reflexivity.
  - vm_compute. reflexivity.
  - reflexivity.
  - reflexivity.
  - exists w'. split; [exact Hrun|]. split; [exact Hm|]. split; [exact Hv|exact Ha].
Defined.

(** An instance of X5: both streams arrive, the probe succeeds and the merge
    command exits with a status other than 0; the two temporary files are
    what the output directory holds on return. *)
Lemma failed_merge_leaves_temp_files_witness :
  ∃ w',
    @downloader._download_single_video example_runtime "./downloads" "12345" "clip" "720p"
      (world [answer blob_markup; answer "v"; answer "a"] [Exit0; ExitNonZero])
    = (Ok false, w')
    ∧ fs w' = {[ "./downloads/temp_audio_04050607" ]}
              ∪ ({[ "./downloads/temp_video_00010203" ]} ∪ ∅).
Proof.
  destruct (@failed_merge_leaves_temp_files example_runtime
              "./downloads" "12345" "clip" "720p"
              (world [answer blob_markup; answer "v"; answer "a"] [Exit0; ExitNonZero])
              (mkWorld ∅ [answer "v"; answer "a"]
                 [x00; x01; x02; x03; x04; x05; x06; x07] [Exit0; ExitNonZero] 1000
                 [Get "https://www.acfun.cn/v/ac12345" []])
              (downloader.placeholder_streams "12345"))
    as (w' & Hrun & Hfs & _).
  - vm_compute. reflexivity.
  - vm_compute. reflexivity.
  - vm_compute. reflexivity.
  - right. split; [reflexivity|]. cbn. discriminate.
  - exists w'. split; [exact Hrun|exact Hfs].
Defined.

(** An instance of X8: the second part of the video 41502955. *)
Lemma part_id_round_trip_witness :
  Text.search_part_vid "/v/ac41502955_2" = Some "41502955_2".
Proof.
  apply (part_id_round_trip "41502955" "2" EmptyString).
  - reflexivity.
  - discriminate.
  - reflexivity.
  - discriminate.
  - reflexivity.
Defined.

(** An instance of X9: the link of a video, and the link of its second
    part. *)
Lemma video_id_of_link_witness :
  Text.search_digits "ac" "/v/ac41502955" = Some "41502955"
  ∧ Text.search_digits "ac" "https://www.acfun.cn/v/ac41502955_2" = Some "41502955".
Proof.
  destruct (video_id_of_link "41502955" EmptyString) as (H1 & _ & H3).
  - reflexivity.
  - discriminate.
  - reflexivity.
  - split; [exact H1|exact (H3 "2")].
Defined.

(** An instance of X13: the landing page of an uploader with three videos,
    without exhaustive fetching. *)
Lemma up_videos_keep_the_first_page_witness :
  ∃ rest,
    (@extractor.get_up_videos example_runtime "9876" false
       (world [answer three_videos_markup] [])).1
    = Ok (PyList (@extractor._parse_video_page example_runtime
                    (@extractor.BeautifulSoup example_runtime three_videos_markup)
                    (models.Uploader (Uid "9876") "Unknown") ++ rest))
    ∧ rest = [].
Proof.
  destruct (@up_videos_keep_the_first_page example_runtime "9876" false
              (world [answer three_videos_markup] []) three_videos_markup "Unknown" 3)
    as (rest & Hrun & Hflag & _).
  - vm_compute. reflexivity.
  - vm_compute. reflexivity.
  - vm_compute. reflexivity.
  - exists rest. split; [exact Hrun|]. by apply Hflag.
Defined.

(** An instance of X14: the first entry of the catalogue page with three
    videos. *)
Lemma listed_video_shape_witness :
  ∃ v id,
    v ∈ @extractor._parse_video_page example_runtime
          (@extractor.BeautifulSoup example_runtime three_videos_markup)
          (models.Uploader (Uid "9876") "Unknown")
    ∧ Py.getitem v "vid" = Ok (PyId (Vid id))
    ∧ Py.getitem v "multi_p" = Ok PyNone.
Proof.
  assert (∃ v rest,
            @extractor._parse_video_page example_runtime
              (@extractor.BeautifulSoup example_runtime three_videos_markup)
              (models.Uploader (Uid "9876") "Unknown") = v :: rest) as (v & rest & Hl).
  { vm_compute. eauto. }
  assert (v ∈ @extractor._parse_video_page example_runtime
                (@extractor.BeautifulSoup example_runtime three_videos_markup)
                (models.Uploader (Uid "9876") "Unknown")) as Hin.
  { rewrite Hl. apply list_elem_of_here. }
  destruct (@listed_video_shape example_runtime _ _ v Hin)
    as (id & title & cover & date & Hv & _ & _ & _ & _ & Hm & _).
  exists v, id. split; [exact Hin|]. split; [|exact Hm].
  rewrite Hv. reflexivity.
Defined.
